(** * generate_business_plans.py: a shallow embedding and its properties

    The script reads business records from a CSV file, asks a local
    text-generation tool for one plan per record, writes every plan to a
    file of its own and prints a summary.  Its effects are modelled by
    explicit state passing: a [world] holds the file system (a finite map
    from paths to contents), the trace of spawned subprocesses and the
    console; an [env] holds what the process observes from outside (the
    outcome of a subprocess, the clock, whether a file can be opened and
    written, the rows [csv.reader] yields).  The handlers of the records
    run in the processes of a pool: what each of them does to the world is
    a list of [effect]s, and a [pool] tells in which order the operating
    system lets them happen.

    Text is [string]; a character is a code point below 256. *)

From Stdlib Require Import ZArith Ascii String List Lia Bool.
From stdpp Require Import gmap strings list fin_maps.

Local Open Scope string_scope.

(** ** Python string operations used by the script *)

Module Str.

(** [str.isspace] on one character: the code points below 256 that Python
    counts as white space. *)
Definition isspace (c : ascii) : bool :=
  let n := nat_of_ascii c in
  (((9 <=? n) && (n <=? 13)) || ((28 <=? n) && (n <=? 32))
   || (n =? 133) || (n =? 160))%nat.

(** [s.lstrip()] *)
Fixpoint lstrip (s : string) : string :=
  match s with
  | EmptyString => EmptyString
  | String c t => if isspace c then lstrip t else s
  end.

(** [s.rstrip()] *)
Fixpoint rstrip (s : string) : string :=
  match s with
  | EmptyString => EmptyString
  | String c t =>
      match rstrip t with
      | EmptyString => if isspace c then EmptyString else String c EmptyString
      | t' => String c t'
      end
  end.

(** [s.strip()] *)
Definition strip (s : string) : string := rstrip (lstrip s).

(** [s.startswith(p)] *)
Fixpoint startswith (p s : string) : bool :=
  match p with
  | EmptyString => true
  | String a p' =>
      match s with
      | EmptyString => false
      | String b s' => if Ascii.eqb a b then startswith p' s' else false
      end
  end.

(** [p in s] *)
Fixpoint contains (p s : string) : bool :=
  startswith p s
  || match s with
     | EmptyString => false
     | String _ s' => contains p s'
     end.

(** [s.endswith(p)] for a one-character [p] *)
Fixpoint endswith_char (c : ascii) (s : string) : bool :=
  match s with
  | EmptyString => false
  | String a EmptyString => Ascii.eqb a c
  | String _ t => endswith_char c t
  end.

(** [s.replace(old, new)] for one-character [old] and [new] *)
Fixpoint replace_char (old new : ascii) (s : string) : string :=
  match s with
  | EmptyString => EmptyString
  | String c t =>
      String (if Ascii.eqb c old then new else c) (replace_char old new t)
  end.

(** [str.lower] on one character: A-Z, and the capital letters of the
    upper half (0xC0-0xDE but the multiplication sign 0xD7), move up by 32. *)
Definition lower_char (c : ascii) : ascii :=
  let n := nat_of_ascii c in
  if (((65 <=? n) && (n <=? 90))
      || ((192 <=? n) && (n <=? 222) && negb (n =? 215)))%nat
  then ascii_of_nat (n + 32) else c.

(** [s.lower()], on text of code points below 256: there it lowers
    character by character. *)
Fixpoint lower (s : string) : string :=
  match s with
  | EmptyString => EmptyString
  | String c t => String (lower_char c) (lower t)
  end.

(** Does the character occur in the string? *)
Fixpoint has_char (c : ascii) (s : string) : bool :=
  match s with
  | EmptyString => false
  | String a t => Ascii.eqb a c || has_char c t
  end.

(** Every character of the string is white space. *)
Fixpoint all_space (s : string) : bool :=
  match s with
  | EmptyString => true
  | String a t => isspace a && all_space t
  end.

(** The string ends with a character that is not white space. *)
Fixpoint ends_nonspace (s : string) : bool :=
  match s with
  | EmptyString => false
  | String a EmptyString => negb (isspace a)
  | String _ t => ends_nonspace t
  end.

(** [s[:n]] and [s[n:]] *)
Fixpoint take (n : nat) (s : string) : string :=
  match n, s with
  | S n', String c t => String c (take n' t)
  | _, _ => EmptyString
  end.

Fixpoint drop (n : nat) (s : string) : string :=
  match n, s with
  | S n', String _ t => drop n' t
  | _, _ => s
  end.

End Str.

(** ** Exceptions and results *)

Inductive exn : Type :=
  | Exception (msg : string)
  | OSError (msg : string)
  | FileNotFoundError (msg : string)
  | ModuleNotFoundError (msg : string)
  | StopIteration.

(** [str(e)] *)
Definition str_of_exn (e : exn) : string :=
  match e with
  | Exception m | OSError m | FileNotFoundError m
  | ModuleNotFoundError m => m
  | StopIteration => ""
  end.

(** How a call ends: it returns, an exception leaves it, or [exit(code)]
    ends the process. *)
Inductive result (A : Type) : Type :=
  | Return (a : A)
  | Raise (e : exn)
  | Exit (code : Z).
Arguments Return {A} a.
Arguments Raise {A} e.
Arguments Exit {A} code.

(** ** The data model *)

(** The dict built by [load_businesses] for one row. *)
Record business : Type := Business {
  name : string;
  problem : string;
  solution : string;
  landing_page : string
}.

(** [subprocess.CompletedProcess] with the two attributes the script reads. *)
Record completed_process : Type := CompletedProcess {
  returncode : Z;
  stdout : string
}.

(** [datetime.now()] *)
Record datetime : Type := Datetime {
  year : nat; month : nat; day : nat;
  hour : nat; minute : nat; second : nat;
  microsecond : nat
}.

(** What [print] was called with, in order. *)
Inductive printed : Type :=
  | PrintMissing (missing : list string)
  | PrintPleaseInstall
  | PrintCsvNotFound (path : string)
  | PrintProcessing (n : Z)
  | PrintSummaryHeader
  | PrintTotal (n : Z)
  | PrintSuccessful (n : Z)
  | PrintFailures (n : Z)
  | PrintCheckLog
  | PrintComplete.

(** What a process observes from outside. *)
Record env : Type := Env {
  script_directory : string;
  tqdm_installed : bool;
  (** [subprocess.run(argv, capture_output=True, text=True)] *)
  subprocess_run : list string -> exn + completed_process;
  (** the clock read by [datetime.now()] *)
  now : datetime;
  (** the exception [open(path, 'w')] or [open(path, 'a')] raises, if any *)
  open_error : string -> option exn;
  (** opening [path] for reading and iterating [csv.reader] over it *)
  read_csv : string -> exn + list (list string);
  (** the exception [os.makedirs(path, exist_ok=True)] raises, if any *)
  makedirs_error : string -> option exn;
  (** [file.write(text)] and the close of the [with] block, on a file
      opened at [path]: the exception raised, if any, and the number of
      characters of [text] that had reached the file by then *)
  write_error : string -> string -> option (exn * nat)
}.

(** The state the script changes. *)
Record world : Type := World {
  files : gmap string string;
  spawned : list (list string);
  console : list printed
}.

Definition set_files (w : world) (f : gmap string string) : world :=
  World f (spawned w) (console w).

Definition spawn (w : world) (argv : list string) : world :=
  World (files w) (spawned w ++ [argv]) (console w).

Definition print (w : world) (p : printed) : world :=
  World (files w) (spawned w) (console w ++ [p]).

(** ** What a handler does to the world

    A handler runs in a process of the pool, beside the handlers of other
    records.  What it does to the world is a sequence of steps, each one
    taken at once: it runs a subprocess; it opens a file for writing, which
    empties the file; it writes a text through that handle, from the start
    of the file and over what another handle has written there; it
    appends a text to a file opened for appending, in one write that the
    operating system puts at the end of the file as a whole. *)

Inductive effect : Type :=
  | Spawn (argv : list string)
  | Truncate (path : string)
  | WriteAt (path text : string)
  | Append (path text : string).

Definition run_effect (w : world) (f : effect) : world :=
  match f with
  | Spawn argv => spawn w argv
  | Truncate path => set_files w (<[path := ""]> (files w))
  | WriteAt path text =>
      set_files w
        (<[path := text +:+ Str.drop (String.length text)
                                     (default "" (files w !! path))]>
           (files w))
  | Append path text =>
      set_files w (<[path := default "" (files w !! path) +:+ text]> (files w))
  end.

Definition run_effects (w : world) (fs : list effect) : world :=
  fold_left run_effect fs w.


Definition touches (path : string) (f : effect) : bool :=
  match f with
  | Spawn _ => false
  | Truncate q | WriteAt q _ | Append q _ => String.eqb q path
  end.

(** [file.write(text)] and the close of the [with] block: a write of the
    empty text hands nothing to the operating system and does not fail. *)
Definition write_outcome (e : env) (path text : string)
  : option (exn * nat) :=
  match text with
  | EmptyString => None
  | _ => write_error e path text
  end.

(** What of [text] has reached the file when the [with] block is left. *)
Definition written (e : env) (path text : string) : string :=
  match write_outcome e path text with
  | None => text
  | Some (_, n) => Str.take n text
  end.

(** ** Paths *)

(** [os.path.join(a, b)] on a POSIX system. *)
Definition path_join (a b : string) : string :=
  if Str.startswith "/" b then b
  else if String.eqb a "" || Str.endswith_char "/" a then a +:+ b
  else a +:+ "/" +:+ b.

Definition output_directory (e : env) : string :=
  path_join (script_directory e) "Generated_Business_Plans".

Definition business_csv (e : env) : string :=
  path_join (script_directory e) "businesses.csv".

Definition error_log_path (e : env) : string :=
  path_join (output_directory e) "error_log.txt".

(** ** load_businesses *)

(** The body of [for row in reader]. *)
Fixpoint load_rows (rows : list (list string)) : list business :=
  match rows with
  | [] => []
  | row :: rows' =>
      if (4 <=? length row)%nat
      then Business (Str.strip (nth 0 row "")) (Str.strip (nth 1 row ""))
                    (Str.strip (nth 2 row "")) (Str.strip (nth 3 row ""))
           :: load_rows rows'
      else load_rows rows'
  end.

Definition load_businesses (e : env) (w : world)
  : result (list business) * world :=
  match read_csv e (business_csv e) with
  | inl (FileNotFoundError _) =>
      (Exit 1, print w (PrintCsvNotFound (business_csv e)))
  | inl x => (Raise x, w)
  | inr [] => (Raise StopIteration, w)
  | inr (_header :: rows) => (Return (load_rows rows), w)
  end.

(** ** generate_filename *)

Definition digit (n : nat) : ascii := ascii_of_nat (48 + n mod 10).

(** A number in two, and in four, decimal digits, as [%m], [%d], [%H], [%M],
    [%S] and (for the years 1000 to 9999) [%Y] print it. *)
Definition two_digits (n : nat) : string :=
  String (digit (n / 10)) (String (digit n) "").

Definition four_digits (n : nat) : string :=
  String (digit (n / 1000)) (String (digit (n / 100)) (two_digits n)).

(** [t.strftime('%Y-%m-%d_%H-%M-%S')] *)
Definition strftime (t : datetime) : string :=
  four_digits (year t) +:+ "-" +:+ two_digits (month t) +:+ "-"
  +:+ two_digits (day t) +:+ "_" +:+ two_digits (hour t) +:+ "-"
  +:+ two_digits (minute t) +:+ "-" +:+ two_digits (second t).

Definition generate_filename (e : env) (name : string) : string :=
  let title := Str.lower (Str.replace_char " " "_" name) in
  title +:+ "_" +:+ strftime (now e).

(** ** generate_business_plan *)

(** The line feed written [\n] in the source. *)
Definition newline : ascii := ascii_of_nat 10.
Definition nl : string := String newline "".

Definition prompt (b : business) : string :=
  "Write a detailed business plan for a company called '" +:+ name b
  +:+ "'." +:+ nl
  +:+ "1. Executive Summary" +:+ nl
  +:+ "2. Problem Statement: " +:+ problem b +:+ nl
  +:+ "3. Solution: " +:+ solution b +:+ nl
  +:+ "4. Business Model" +:+ nl
  +:+ "5. Market Analysis" +:+ nl
  +:+ "6. Marketing Strategy" +:+ nl
  +:+ "7. Financial Plan" +:+ nl
  +:+ "8. Conclusion" +:+ nl
  +:+ nl +:+ "Include a reference to the company's landing page: "
  +:+ landing_page b +:+ ".".

(** The argument vector of the tool for one record. *)
Definition ollama_argv (model : string) (b : business) : list string :=
  ["ollama"; "run"; model; prompt b].

(** [spawned] records every call of [subprocess.run], whatever its outcome. *)
Definition generate_business_plan (e : env) (w : world) (b : business)
    (model : string) : string * world :=
  let w' := spawn w (ollama_argv model b) in
  match subprocess_run e (ollama_argv model b) with
  | inr response =>
      if (returncode response =? 0)%Z
      then (Str.strip (stdout response), w')
      else ("Error: AI model failed to generate business plan.", w')
  | inl x => ("Error: " +:+ str_of_exn x, w')
  end.

(** ** save_business_plan *)

(** Where the plan of a record named [n] goes. *)
Definition plan_path (e : env) (n : string) : string :=
  path_join (output_directory e) (generate_filename e n +:+ ".txt").

(** [with open(file_path, 'w') as file: file.write(plan)] inside the
    [try]: when [open] raises nothing changes; otherwise the file is
    emptied and holds what of the plan was written, the whole plan unless
    the write or the close raises.  Every exception ends in the returned
    text. *)
Definition save_business_plan (e : env) (w : world) (b : business)
    (plan : string) : string * world :=
  let file_path := plan_path e (name b) in
  match open_error e file_path with
  | None =>
      (match write_outcome e file_path plan with
       | None => "Business plan saved: " +:+ file_path
       | Some (x, _) => "Error saving file: " +:+ str_of_exn x
       end,
       set_files w (<[file_path := written e file_path plan]> (files w)))
  | Some x => ("Error saving file: " +:+ str_of_exn x, w)
  end.

(** The steps of [save_business_plan]. *)
Definition save_effects (e : env) (b : business) (plan : string)
  : list effect :=
  let file_path := plan_path e (name b) in
  match open_error e file_path with
  | None => [Truncate file_path; WriteAt file_path (written e file_path plan)]
  | Some _ => []
  end.

(** ** process_business *)

(** [with open(path, "a") as file: file.write(text)], outside any [try]:
    the exception that [open], the write or the close raises, if any, and
    the world it leaves.  When [open] raises nothing changes; otherwise
    what of the text was written is appended. *)
Definition append_file (e : env) (w : world) (path text : string)
  : option exn * world :=
  match open_error e path with
  | Some x => (Some x, w)
  | None =>
      (match write_outcome e path text with
       | None => None
       | Some (x, _) => Some x
       end,
       set_files w
         (<[path := default "" (files w !! path) +:+ written e path text]>
            (files w)))
  end.

(** The [except Exception as e] block. *)
Definition log_error (e : env) (w : world) (b : business) (x : exn)
  : result string * world :=
  let error_message :=
    "Error processing '" +:+ name b +:+ "': " +:+ str_of_exn x +:+ nl in
  match append_file e w (error_log_path e) error_message with
  | (Some x', w') => (Raise x', w')
  | (None, w') => (Return error_message, w')
  end.

(** The steps of the [except] block. *)
Definition log_effects (e : env) (b : business) (x : exn) : list effect :=
  let error_message :=
    "Error processing '" +:+ name b +:+ "': " +:+ str_of_exn x +:+ nl in
  match open_error e (error_log_path e) with
  | None =>
      [Append (error_log_path e)
              (written e (error_log_path e) error_message)]
  | Some _ => []
  end.

(** Nothing in the [try] block raises but the [raise] of the source: the
    two callees catch their own exceptions. *)
Definition process_business (e : env) (w : world) (b : business)
  : result string * world :=
  let (plan, w1) := generate_business_plan e w b "mistral" in
  if Str.contains "Error" plan
  then log_error e w1 b (Exception plan)
  else let (r, w2) := save_business_plan e w1 b plan in (Return r, w2).

(** The steps of [process_business], in the order in which it takes them:
    run one after another from [w] they give the world that
    [process_business] returns.  The text of the plan does not depend on
    the world. *)
Definition handler_effects (e : env) (w : world) (b : business)
  : list effect :=
  let plan := fst (generate_business_plan e w b "mistral") in
  Spawn (ollama_argv "mistral" b)
  :: (if Str.contains "Error" plan
      then log_effects e b (Exception plan)
      else save_effects e b plan).

(** ** check_dependencies

    [tqdm_installed] is what [import tqdm] finds at line 23.  In a run of
    the script it is true there: line 6 has imported tqdm when the
    function is defined (see [script]). *)

Definition check_dependencies (e : env) (w : world) : result unit * world :=
  let missing := if tqdm_installed e then [] else ["tqdm"] in
  let w1 := spawn w ["which"; "ollama"] in
  match subprocess_run e ["which"; "ollama"] with
  | inl x => (Raise x, w1)
  | inr p =>
      let missing :=
        if (returncode p =? 0)%Z then missing else (missing ++ ["ollama"])%list in
      match missing with
      | [] => (Return tt, w1)
      | _ :: _ =>
          (Exit 1, print (print w1 (PrintMissing missing)) PrintPleaseInstall)
      end
  end.

(** ** main *)

(** The pool: the process that handles the record at place [k] observes
    [worker k], and [schedule] is the order in which the operating system
    lets the handlers take their steps: each entry names a record, whose
    handler then takes its next step. *)
Record pool : Type := Pool {
  worker :> nat -> env;
  schedule : list nat
}.

(** The steps that the handlers of the records have yet to take. *)
Fixpoint tasks (workers : nat -> env) (i : nat) (w : world)
    (businesses : list business) : list (list effect) :=
  match businesses with
  | [] => []
  | b :: rest =>
      handler_effects (workers i) w b :: tasks workers (S i) w rest
  end.

(** How the handlers of the records end. *)
Fixpoint outcomes (workers : nat -> env) (i : nat) (w : world)
    (businesses : list business) : list (result string) :=
  match businesses with
  | [] => []
  | b :: rest =>
      fst (process_business (workers i) w b) :: outcomes workers (S i) w rest
  end.

(** The steps that the schedule lets the handlers take, in the order in
    which they are taken, and the steps that are left to every handler. *)
Fixpoint run_schedule (sched : list nat) (pending : list (list effect))
  : list effect * list (list effect) :=
  match sched with
  | [] => ([], pending)
  | k :: sched' =>
      match pending !! k with
      | Some (f :: fs) =>
          let (steps, left) := run_schedule sched' (<[k := fs]> pending) in
          (f :: steps, left)
      | _ => run_schedule sched' pending
      end
  end.

(** [list(...)] over the results in the order of the records: the first
    exception that a handler raised is raised again; with it comes the
    place of its record. *)
Fixpoint collect (outs : list (result string)) : result (list string) * nat :=
  match outs with
  | [] => (Return [], 0%nat)
  | Return r :: rest =>
      match collect rest with
      | (Return rs, n) => (Return (r :: rs), n)
      | (Raise x, n) => (Raise x, S n)
      | (Exit c, n) => (Exit c, S n)
      end
  | Raise x :: _ => (Raise x, 0%nat)
  | Exit c :: _ => (Exit c, 0%nat)
  end.

(** [list(pool.imap(process_business, businesses))]: the results come in
    the order of the records.  The handlers take their steps as the
    schedule says, and those that must run to their end take the steps
    left to them after it.  When the list is complete, every handler has
    run to its end.  When the handler of a record raised, the exception is
    raised again in the parent once the results before it have come: the
    handlers up to that record have run to their end, and the pool is torn
    down with the others where the schedule left them.  The handler of the
    record at place [k] observes [workers (i + k)]. *)
Definition imap (workers : pool) (i : nat) (w : world)
    (businesses : list business) : result (list string) * world :=
  let (steps, left) :=
    run_schedule (schedule workers) (tasks workers i w businesses) in
  match collect (outcomes workers i w businesses) with
  | (Return results, _) =>
      (Return results, run_effects w (steps ++ concat left))
  | (Raise x, j) =>
      (Raise x, run_effects w (steps ++ concat (take (S j) left)))
  | (Exit c, j) =>
      (Exit c, run_effects w (steps ++ concat (take (S j) left)))
  end.

(** [sum(...)] over integers *)
Definition sum (l : list Z) : Z := fold_left Z.add l 0%Z.

(** [sum(1 for r in results if "saved" in r)] *)
Definition success_count (results : list string) : Z :=
  sum (map (fun _ => 1%Z) (List.filter (Str.contains "saved") results)).

(** [len(businesses) - success_count] *)
Definition failure_count (businesses : list business)
    (results : list string) : Z :=
  (Z.of_nat (length businesses) - success_count results)%Z.

(** The prints of the summary report. *)
Definition report (w : world) (businesses : list business)
    (results : list string) : world :=
  let w1 := print w PrintSummaryHeader in
  let w2 := print w1 (PrintTotal (Z.of_nat (length businesses))) in
  let w3 := print w2 (PrintSuccessful (success_count results)) in
  let w4 := print w3 (PrintFailures (failure_count businesses results)) in
  let w5 :=
    if (0 <? failure_count businesses results)%Z
    then print w4 PrintCheckLog else w4 in
  print w5 PrintComplete.

Definition main (e : env) (workers : pool) (w : world)
  : result unit * world :=
  match check_dependencies e w with
  | (Return _, w1) =>
      match load_businesses e w1 with
      | (Return businesses, w2) =>
          let w3 := print w2 (PrintProcessing (Z.of_nat (length businesses))) in
          match imap workers 0 w3 businesses with
          | (Return results, w4) => (Return tt, report w4 businesses results)
          | (Raise x, w4) => (Raise x, w4)
          | (Exit c, w4) => (Exit c, w4)
          end
      | (Raise x, w2) => (Raise x, w2)
      | (Exit c, w2) => (Exit c, w2)
      end
  | (Raise x, w1) => (Raise x, w1)
  | (Exit c, w1) => (Exit c, w1)
  end.

(** ** The module

    Running the script runs the module from its first line: the import of
    tqdm at line 6 raises when tqdm is not installed, and nothing below it
    is run; line 13 makes the output directory, or raises; the last line
    calls [main]. *)
Definition script (e : env) (workers : pool) (w : world)
  : result unit * world :=
  if tqdm_installed e then
    match makedirs_error e (output_directory e) with
    | Some x => (Raise x, w)
    | None => main e workers w
    end
  else (Raise (ModuleNotFoundError "No module named 'tqdm'"), w).

(** ** Sample data *)

Module Sample.

Definition acme : business :=
  Business "Acme" "too slow" "faster widget" "acme.com".

(** A name of two lines, as a quoted CSV field can hold. *)
Definition two_lines : business :=
  Business ("Acme" +:+ nl +:+ "Ltd") "too slow" "faster widget" "acme.com".

Definition clock : datetime := Datetime 2024 3 7 9 5 2 4500.

Definition rows : list (list string) :=
  [ ["name"; "problem"; "solution"; "landing_page"];
    ["  Acme "; "too slow"; "faster widget"; "acme.com "; "extra"];
    ["Short"; "row"];
    ["Bolt"; " loose "; "tighter"; "bolt.io"] ].

(** A machine on which the tool answers [r] to every call and [open]
    raises what [oe] says. *)
Definition machine (r : exn + completed_process)
    (oe : string -> option exn) : env :=
  Env "/home/u/bp" true
      (fun argv =>
         match argv with
         | "which" :: _ => inr (CompletedProcess 0 "/usr/bin/ollama")
         | _ => r
         end)
      clock oe (fun _ => inr rows) (fun _ => None) (fun _ _ => None).

(** The same machine with another input file. *)
Definition with_rows (e : env) (rs : list (list string)) : env :=
  Env (script_directory e) (tqdm_installed e) (subprocess_run e) (now e)
      (open_error e) (fun _ => inr rs) (makedirs_error e) (write_error e).

(** The same machine with a disk that takes [n] characters of every text
    and is full then. *)
Definition full_disk (e : env) (n : nat) : env :=
  Env (script_directory e) (tqdm_installed e) (subprocess_run e) (now e)
      (open_error e) (read_csv e) (makedirs_error e)
      (fun _ _ => Some (OSError "[Errno 28] No space left on device", n)).

Definition writable : string -> option exn := fun _ => None.

Definition read_only : string -> option exn :=
  fun path => Some (OSError ("[Errno 13] Permission denied: '" +:+ path +:+ "'")).

(** Only the error log can be opened: the path of a plan leads through a
    directory that does not exist. *)
Definition only_log : string -> option exn :=
  fun path =>
    if String.eqb path "/home/u/bp/Generated_Business_Plans/error_log.txt"
    then None
    else Some (FileNotFoundError
                 ("[Errno 2] No such file or directory: '" +:+ path +:+ "'")).

(** A name with a slash in it. *)
Definition slashed : business :=
  Business "A/B" "too slow" "faster widget" "acme.com".

Definition blank : world := World ∅ [] [].

(** The parent process, and a pool in which the tool answers the first
    record and fails on every other one. *)
Definition parent : env := machine (inl StopIteration) writable.

(** A pool in which every handler observes [e] and the handlers run one
    after another. *)
Definition alone (e : env) : pool := Pool (fun _ => e) [].

Definition pool :=
  Pool (fun k =>
          match k with
          | O => machine (inr (CompletedProcess 0 ("PLAN TEXT" +:+ nl))) writable
          | S _ => machine (inr (CompletedProcess 1 "")) writable
          end)
       [1; 0; 1; 0; 0]%nat.

Definition businesses : list business :=
  [ Business "Acme" "too slow" "faster widget" "acme.com";
    Business "Bolt" "loose" "tighter" "bolt.io" ].

Definition results : list string :=
  [ "Business plan saved: "
    +:+ "/home/u/bp/Generated_Business_Plans/acme_2024-03-07_09-05-02.txt";
    "Error processing 'Bolt': "
    +:+ "Error: AI model failed to generate business plan." +:+ nl ].

Definition checked : world := snd (check_dependencies parent blank).

Definition announced : world := print checked (PrintProcessing 2).

Definition processed : world := snd (imap pool 0 announced businesses).

(** Two records whose names differ in case and in a space for an
    underscore, and a pool in which the tool answers both within one
    second. *)
Definition twins : list business :=
  [ Business "My Shop" "too slow" "faster widget" "shop.com";
    Business "my_shop" "too dear" "cheaper widget" "shop.org" ].

Definition twin_rows : list (list string) :=
  [ ["name"; "problem"; "solution"; "landing_page"];
    ["My Shop"; "too slow"; "faster widget"; "shop.com"];
    ["my_shop"; "too dear"; "cheaper widget"; "shop.org"] ].

Definition twin_workers (k : nat) : env :=
  match k with
  | O => machine (inr (CompletedProcess 0 "FIRST PLAN")) writable
  | S _ => machine (inr (CompletedProcess 0 "SECOND PLAN")) writable
  end.

(** The two handlers one after the other. *)
Definition twin_pool := Pool twin_workers [].

(** The two handlers side by side: both open the file before either
    writes, and the first one writes last. *)
Definition twin_race := Pool twin_workers [0; 1; 0; 1; 1; 0]%nat.

(** A machine without the tool: [which ollama] exits with code 1. *)
Definition bare : env :=
  Env "/home/u/bp" true
      (fun _ => inr (CompletedProcess 1 "")) clock writable
      (fun _ => inr rows) (fun _ => None) (fun _ _ => None).

(** A machine without tqdm. *)
Definition no_tqdm : env :=
  Env "/home/u/bp" false
      (fun _ => inr (CompletedProcess 1 "")) clock writable
      (fun _ => inr rows) (fun _ => None) (fun _ _ => None).

(** A machine without the input file. *)
Definition no_csv : env :=
  Env "/home/u/bp" true
      (fun _ => inr (CompletedProcess 0 "/usr/bin/ollama")) clock writable
      (fun path =>
         inl (FileNotFoundError
                ("[Errno 2] No such file or directory: '" +:+ path +:+ "'")))
      (fun _ => None) (fun _ _ => None).

(** A name that leads out of the output directory. *)
Definition pwned : business :=
  Business "/tmp/pwned" "too slow" "faster widget" "acme.com".

Definition dotted : business :=
  Business "../pwned" "too slow" "faster widget" "acme.com".

End Sample.

(** ** Statements of the specification, as it words them

    These are compared with the code below; the code meets none of them on
    every input. *)

Module Stated.

(** The Plan Generator returns the captured standard output on exit code 0,
    and a text with the word Error in it on any failure. *)
Definition plan_is_stdout (e : env) (w : world) (b : business)
    (model : string) : Prop :=
  let plan := fst (generate_business_plan e w b model) in
  match subprocess_run e (ollama_argv model b) with
  | inl _ => Str.contains "Error" plan = true
  | inr p =>
      if (returncode p =? 0)%Z then plan = stdout p
      else Str.contains "Error" plan = true
  end.

(** The handler reports that it saved the plan. *)
Definition saved (e : env) (w : world) (b : business) : Prop :=
  exists path,
    fst (process_business e w b) = Return ("Business plan saved: " +:+ path).

(** The name the specification gives to the file of a record. *)
Definition named_path (e : env) (b : business) : string :=
  output_directory e +:+ "/"
  +:+ Str.lower (Str.replace_char " " "_" (name b))
  +:+ "_" +:+ strftime (now e) +:+ ".txt".

(** On exit code 0 and a successful write, exactly one new file appears,
    under that name, and it holds the captured standard output. *)
Definition one_new_file_with_stdout (e : env) (w : world) (b : business)
  : Prop :=
  forall p,
    subprocess_run e (ollama_argv "mistral" b) = inr p ->
    returncode p = 0%Z ->
    saved e w b ->
    let w' := snd (process_business e w b) in
    dom (files w') ∖ dom (files w) = ({[ named_path e b ]} : gset string)
    /\ files w' !! named_path e b = Some (stdout p).

(** The file is under the output directory. *)
Definition under_output_directory (e : env) (path : string) : bool :=
  Str.startswith (output_directory e +:+ "/") path.

(** The tool exits with a code other than 0, or running it raises. *)
Definition tool_failed (e : env) (b : business) : Prop :=
  match subprocess_run e (ollama_argv "mistral" b) with
  | inl _ => True
  | inr p => returncode p <> 0%Z
  end.

(** The text is one line and its line feed: the only line feed is the last
    character. *)
Fixpoint one_line (t : string) : bool :=
  match t with
  | EmptyString => false
  | String c EmptyString => Ascii.eqb c newline
  | String c t' => negb (Ascii.eqb c newline) && one_line t'
  end.

(** On a failure of the tool no output file appears and exactly one line
    is appended to the error log. *)
Definition failure_logs_one_line (e : env) (w : world) (b : business)
  : Prop :=
  tool_failed e b ->
  let w' := snd (process_business e w b) in
  (forall path, path <> error_log_path e ->
                files w' !! path = files w !! path)
  /\ exists t,
       one_line t = true
       /\ files w' !! error_log_path e
          = Some (default "" (files w !! error_log_path e) +:+ t).

(** The handler always returns a string. *)
Definition always_returns (e : env) (w : world) (b : business) : Prop :=
  exists r, fst (process_business e w b) = Return r.


End Stated.

(** * Properties *)

#[local] Arguments String.append !s1 s2 : simpl nomatch.

(** ** Strings *)

Module StrFacts.
Import Str.

Lemma eqb_isspace_false a c :
  isspace a = false -> isspace c = true -> Ascii.eqb a c = false.
Proof.
  intros Ha Hc. destruct (Ascii.eqb a c) eqn:E; [|reflexivity].
  apply Ascii.eqb_eq in E. subst. congruence.
Qed.

Lemma has_char_app c a b :
  has_char c (a +:+ b) = has_char c a || has_char c b.
Proof.
  induction a as [|x a IH]; simpl; [reflexivity|].
  now rewrite IH, orb_assoc.
Qed.

(** A pattern free of [c] cannot reach across an occurrence of [c]. *)
Lemma startswith_app_sep c p a b :
  has_char c p = false ->
  startswith p (a +:+ String c b) = startswith p a.
Proof.
  revert a. induction p as [|x p IH]; intros a H; [reflexivity|].
  simpl in H. apply orb_false_elim in H as [Hx Hp].
  destruct a as [|y a]; simpl.
  - now rewrite Hx.
  - destruct (Ascii.eqb x y); [now apply IH | reflexivity].
Qed.

Lemma contains_empty_hay a p : contains (String a p) "" = false.
Proof. reflexivity. Qed.

Lemma contains_app_sep c x p a b :
  has_char c (String x p) = false ->
  contains (String x p) (a +:+ String c b)
  = contains (String x p) a || contains (String x p) b.
Proof.
  intros H. induction a as [|y a IH].
  - change ("" +:+ String c b) with (String c b).
    rewrite contains_empty_hay. cbn [orb].
    cbn [contains].
    pose proof (startswith_app_sep c (String x p) "" b H) as E.
    change ("" +:+ String c b) with (String c b) in E. rewrite E.
    reflexivity.
  - change (String y a +:+ String c b) with (String y (a +:+ String c b)).
    cbn [contains]. rewrite IH.
    pose proof (startswith_app_sep c (String x p) (String y a) b H) as E.
    change (String y a +:+ String c b) with (String y (a +:+ String c b)) in E.
    rewrite E. now rewrite orb_assoc.
Qed.

(** *** Stripping *)

Lemma lstrip_split s :
  exists l, s = l +:+ lstrip s /\ all_space l = true.
Proof.
  induction s as [|c s [l [E Hl]]]; simpl.
  - now exists "".
  - destruct (isspace c) eqn:Hc.
    + exists (String c l). split.
      * simpl. now f_equal.
      * simpl. now rewrite Hc, Hl.
    + now exists "".
Qed.

Lemma rstrip_split s :
  exists r, s = rstrip s +:+ r /\ all_space r = true.
Proof.
  induction s as [|c s [r [E Hr]]]; simpl.
  - now exists "".
  - destruct (rstrip s) as [|d t] eqn:Ht.
    + simpl in E. subst r. destruct (isspace c) eqn:Hc.
      * exists (String c s). simpl. now rewrite Hc, Hr.
      * now exists s.
    + exists r. simpl. split; [|assumption]. now rewrite E at 1.
Qed.

Lemma all_space_app a b :
  all_space (a +:+ b) = all_space a && all_space b.
Proof.
  induction a as [|x a IH]; simpl; [reflexivity|].
  now rewrite IH, andb_assoc.
Qed.

(** What [strip] removes is white space on either side. *)
Lemma strip_split s :
  exists l r, s = l +:+ strip s +:+ r
              /\ all_space l = true /\ all_space r = true.
Proof.
  destruct (lstrip_split s) as [l [El Hl]].
  destruct (rstrip_split (lstrip s)) as [r [Er Hr]].
  exists l, r. unfold strip. now rewrite <- Er, <- El.
Qed.

Lemma lstrip_head s :
  match lstrip s with
  | EmptyString => True
  | String c _ => isspace c = false
  end.
Proof.
  induction s as [|c s IH]; simpl; [exact I|].
  destruct (isspace c) eqn:Hc; [exact IH | exact Hc].
Qed.

Lemma rstrip_keeps_head c t :
  isspace c = false -> exists t', rstrip (String c t) = String c t'.
Proof.
  intros Hc. simpl. destruct (rstrip t); rewrite ?Hc; eauto.
Qed.

(** What [strip] leaves does not begin with white space. *)
Lemma strip_head s :
  match strip s with
  | EmptyString => True
  | String c _ => isspace c = false
  end.
Proof.
  unfold strip. pose proof (lstrip_head s) as H.
  destruct (lstrip s) as [|c t]; simpl; [exact I|].
  destruct (rstrip_keeps_head c t H) as [t' E]. simpl in E. now rewrite E.
Qed.

(** Nor does what [rstrip] leaves end with white space. *)
Lemma rstrip_last s c :
  isspace c = true -> endswith_char c (rstrip s) = false.
Proof.
  intros Hc. induction s as [|a s IH]; simpl; [reflexivity|].
  destruct (rstrip s) as [|d t] eqn:Ht.
  - destruct (isspace a) eqn:Ha; simpl; [reflexivity|].
    now apply eqb_isspace_false.
  - exact IH.
Qed.

Lemma strip_last s c :
  isspace c = true -> endswith_char c (strip s) = false.
Proof. apply rstrip_last. Qed.

(** *** Searching in stripped text *)

Lemma contains_lstrip a p s :
  isspace a = false ->
  contains (String a p) (lstrip s) = contains (String a p) s.
Proof.
  intros Ha. induction s as [|c s IH]; [reflexivity|].
  cbn [lstrip]. destruct (isspace c) eqn:Hc; [|reflexivity].
  rewrite IH. cbn [contains startswith].
  now rewrite (eqb_isspace_false a c Ha Hc).
Qed.

Lemma startswith_app_space p a r :
  ends_nonspace p = true -> all_space r = true ->
  startswith p (a +:+ r) = startswith p a.
Proof.
  revert a r. induction p as [|c p IH]; intros a r Hp Hr; [discriminate|].
  destruct p as [|c' p].
  - simpl in Hp. apply negb_true_iff in Hp.
    destruct a as [|x a]; simpl; [|now destruct (Ascii.eqb c x)].
    destruct r as [|y r]; [reflexivity|].
    simpl in Hr. apply andb_prop in Hr as [Hy _].
    now rewrite (eqb_isspace_false c y Hp Hy).
  - change (ends_nonspace (String c (String c' p)))
      with (ends_nonspace (String c' p)) in Hp.
    destruct a as [|x a].
    + destruct r as [|y r]; [reflexivity|].
      simpl in Hr. apply andb_prop in Hr as [_ Hr].
      cbn [String.append startswith].
      destruct (Ascii.eqb c y); [|reflexivity].
      pose proof (IH "" r Hp Hr) as E. cbn [String.append] in E.
      exact E.
    + cbn [String.append startswith].
      destruct (Ascii.eqb c x); [now apply IH | reflexivity].
Qed.

Lemma contains_all_space p r :
  ends_nonspace p = true -> all_space r = true -> contains p r = false.
Proof.
  intros Hp. induction r as [|y r IH]; intros Hr.
  - destruct p; [discriminate | reflexivity].
  - pose proof (startswith_app_space p "" (String y r) Hp Hr) as E.
    simpl in Hr. apply andb_prop in Hr as [_ Hr].
    cbn [contains]. cbn [String.append] in E. rewrite E, (IH Hr).
    destruct p; [discriminate | reflexivity].
Qed.

Lemma contains_app_space p a r :
  ends_nonspace p = true -> all_space r = true ->
  contains p (a +:+ r) = contains p a.
Proof.
  intros Hp Hr. induction a as [|x a IH].
  - cbn [String.append]. rewrite (contains_all_space p r Hp Hr).
    destruct p; [discriminate | reflexivity].
  - pose proof (startswith_app_space p (String x a) r Hp Hr) as E.
    cbn [String.append] in *. cbn [contains]. now rewrite E, IH.
Qed.

Lemma contains_rstrip p s :
  ends_nonspace p = true -> contains p (rstrip s) = contains p s.
Proof.
  intros Hp. destruct (rstrip_split s) as [r [E Hr]].
  rewrite E at 2. symmetry. now apply contains_app_space.
Qed.

(** A word that neither begins nor ends with white space is in a text when
    it is in the stripped text. *)
Lemma contains_strip a p s :
  isspace a = false -> ends_nonspace (String a p) = true ->
  contains (String a p) (strip s) = contains (String a p) s.
Proof.
  intros Ha Hp. unfold strip.
  now rewrite contains_rstrip, contains_lstrip.
Qed.

(** *** Ends of concatenations *)

Lemma endswith_char_app c a x b :
  endswith_char c (a +:+ String x b) = endswith_char c (String x b).
Proof.
  induction a as [|y a IH]; [reflexivity|].
  cbn [String.append]. rewrite <- IH.
  destruct a; reflexivity.
Qed.

Lemma app_assoc a b c : (a +:+ b) +:+ c = a +:+ (b +:+ c).
Proof.
  induction a as [|x a IH]; [reflexivity|].
  cbn [String.append]. now rewrite IH.
Qed.

Lemma eqb_app_cons_empty a x b : String.eqb (a +:+ String x b) "" = false.
Proof. destruct a; reflexivity. Qed.

(** Replacing spaces and lowering the case neither makes nor unmakes a
    leading slash. *)
Lemma slash_lower_replace c :
  Ascii.eqb "/" (lower_char (if Ascii.eqb c " " then "_"%char else c))
  = Ascii.eqb "/" c.
Proof. destruct c as [[] [] [] [] [] [] [] []]; reflexivity. Qed.

Lemma startswith_slash_title n rest :
  startswith "/" (lower (replace_char " " "_" n) +:+ String "_" rest)
  = startswith "/" n.
Proof.
  destruct n as [|c n]; [reflexivity|].
  cbn [replace_char lower String.append startswith].
  rewrite slash_lower_replace. now destruct (Ascii.eqb "/" c).
Qed.

(** *** Lines *)

Lemma one_line_app a :
  Stated.one_line (a +:+ nl) = negb (has_char newline a).
Proof.
  induction a as [|x a IH]; [reflexivity|].
  cbn [String.append Stated.one_line has_char]. rewrite IH.
  rewrite negb_orb.
  destruct a; reflexivity.
Qed.

End StrFacts.

(** ** The loader *)

Lemma load_rows_app pre post :
  load_rows (pre ++ post) = (load_rows pre ++ load_rows post)%list.
Proof.
  induction pre as [|row pre IH]; [reflexivity|].
  cbn [app load_rows]. destruct (4 <=? length row)%nat; [|exact IH].
  now rewrite IH.
Qed.

Lemma load_rows_long f0 f1 f2 f3 extra rows :
  load_rows ((f0 :: f1 :: f2 :: f3 :: extra) :: rows)
  = Business (Str.strip f0) (Str.strip f1) (Str.strip f2) (Str.strip f3)
    :: load_rows rows.
Proof. reflexivity. Qed.

Lemma load_rows_short row rows :
  (length row < 4)%nat -> load_rows (row :: rows) = load_rows rows.
Proof.
  intros H. cbn [load_rows].
  destruct (Nat.leb_spec 4 (length row)); [lia | reflexivity].
Qed.

(** When every row is long enough there are as many records as rows. *)
Lemma load_rows_length rows :
  Forall (fun row => (4 <= length row)%nat) rows ->
  length (load_rows rows) = length rows.
Proof.
  induction 1 as [|row rows H _ IH]; [reflexivity|].
  cbn [load_rows]. destruct (Nat.leb_spec 4 (length row)); [|lia].
  cbn [length]. now rewrite IH.
Qed.

Lemma load_businesses_rows e w header rows :
  read_csv e (business_csv e) = inr (header :: rows) ->
  load_businesses e w = (Return (load_rows rows), w).
Proof. intros H. unfold load_businesses. now rewrite H. Qed.

(** C1. A row of at least four fields that follows the header gives exactly
    one record, at the place of the row among the records of the rows
    before and after it; the fields [name], [problem], [solution] and
    [landing_page] of the record are the first four fields of the row, in
    this order, each stripped of surrounding white space. *)
Theorem load_businesses_long_row e w header pre f0 f1 f2 f3 extra post :
  read_csv e (business_csv e)
  = inr (header :: pre ++ (f0 :: f1 :: f2 :: f3 :: extra) :: post) ->
  load_businesses e w
  = (Return (load_rows pre
             ++ Business (Str.strip f0) (Str.strip f1)
                         (Str.strip f2) (Str.strip f3)
             :: load_rows post)%list, w).
Proof.
  intros H. rewrite (load_businesses_rows e w _ _ H).
  now rewrite load_rows_app, load_rows_long.
Qed.

Lemma load_businesses_long_row_witness :
  load_businesses (Sample.machine (inl StopIteration) Sample.writable)
                  Sample.blank
  = (Return [ Business "Acme" "too slow" "faster widget" "acme.com";
              Business "Bolt" "loose" "tighter" "bolt.io" ],
     Sample.blank).
Proof.
  exact (load_businesses_long_row
           (Sample.machine (inl StopIteration) Sample.writable) Sample.blank
           ["name"; "problem"; "solution"; "landing_page"] []
           "  Acme " "too slow" "faster widget" "acme.com " ["extra"]
           [ ["Short"; "row"]; ["Bolt"; " loose "; "tighter"; "bolt.io"] ]
           eq_refl).
Defined.

(** C8. A row of fewer than four fields that follows the header is dropped
    without any error: the loader returns, prints nothing, and the records
    are those it returns for the file without that row. *)
Theorem load_businesses_short_row e e' w header pre short post :
  (length short < 4)%nat ->
  read_csv e (business_csv e) = inr (header :: pre ++ short :: post) ->
  read_csv e' (business_csv e') = inr (header :: pre ++ post) ->
  load_businesses e w = (Return (load_rows pre ++ load_rows post)%list, w)
  /\ load_businesses e w = load_businesses e' w.
Proof.
  intros Hshort H H'.
  rewrite (load_businesses_rows e w _ _ H).
  rewrite (load_businesses_rows e' w _ _ H').
  rewrite !load_rows_app, (load_rows_short short post Hshort).
  split; reflexivity.
Qed.

Lemma load_businesses_short_row_witness :
  let e := Sample.machine (inl StopIteration) Sample.writable in
  let e' :=
    Sample.with_rows e
      [ ["name"; "problem"; "solution"; "landing_page"];
        ["  Acme "; "too slow"; "faster widget"; "acme.com "; "extra"];
        ["Bolt"; " loose "; "tighter"; "bolt.io"] ] in
  load_businesses e Sample.blank
  = (Return [ Business "Acme" "too slow" "faster widget" "acme.com";
              Business "Bolt" "loose" "tighter" "bolt.io" ],
     Sample.blank)
  /\ load_businesses e Sample.blank = load_businesses e' Sample.blank.
Proof.
  intros e e'.
  exact (load_businesses_short_row e e' Sample.blank
           ["name"; "problem"; "solution"; "landing_page"]
           [ ["  Acme "; "too slow"; "faster widget"; "acme.com "; "extra"] ]
           ["Short"; "row"]
           [ ["Bolt"; " loose "; "tighter"; "bolt.io"] ]
           (le_S 3 3 (le_n 3)) eq_refl eq_refl).
Defined.

(** ** The plan generator *)

Lemma generate_business_plan_world e w b model :
  snd (generate_business_plan e w b model) = spawn w (ollama_argv model b).
Proof.
  unfold generate_business_plan.
  destruct (subprocess_run e (ollama_argv model b)) as [x|p];
    [reflexivity|].
  now destruct (returncode p =? 0)%Z.
Qed.

(** The text of the plan does not depend on the world. *)
Lemma generate_business_plan_text e w w' b model :
  fst (generate_business_plan e w b model)
  = fst (generate_business_plan e w' b model).
Proof.
  unfold generate_business_plan.
  destruct (subprocess_run e (ollama_argv model b)) as [x|p];
    [reflexivity|].
  now destruct (returncode p =? 0)%Z.
Qed.

(** C2, amended. When running the tool raises, or the tool exits with a
    code other than 0, the Plan Generator returns a text that contains the
    word Error; when the tool exits with code 0 it returns the captured
    standard output stripped of surrounding white space. *)
Theorem generate_business_plan_result e w b model :
  let plan := fst (generate_business_plan e w b model) in
  match subprocess_run e (ollama_argv model b) with
  | inl _ => Str.contains "Error" plan = true
  | inr p =>
      if (returncode p =? 0)%Z then plan = Str.strip (stdout p)
      else Str.contains "Error" plan = true
  end.
Proof.
  unfold generate_business_plan.
  destruct (subprocess_run e (ollama_argv model b)) as [x|p].
  - reflexivity.
  - now destruct (returncode p =? 0)%Z.
Qed.

(** C2 as worded fails: the tool prints a plan and a line feed, exits with
    code 0, and the text returned lacks the line feed. *)
Lemma generate_business_plan_not_stdout :
  ~ Stated.plan_is_stdout
      (Sample.machine (inr (CompletedProcess 0 ("PLAN TEXT" +:+ nl)))
                      Sample.writable)
      Sample.blank Sample.acme "mistral".
Proof. intros H. vm_compute in H. discriminate H. Qed.

(** ** Paths *)

Lemma output_directory_shape e :
  exists a, output_directory e = a +:+ "Generated_Business_Plans".
Proof.
  unfold output_directory, path_join. cbn [Str.startswith Ascii.eqb].
  change (Ascii.eqb "/" "G") with false. cbv iota.
  destruct (_ || _).
  - now exists (script_directory e).
  - exists (script_directory e +:+ "/"). now rewrite StrFacts.app_assoc.
Qed.

(** A relative name is put under the output directory, after a slash. *)
Lemma path_join_output_directory e f :
  Str.startswith "/" f = false ->
  path_join (output_directory e) f = output_directory e +:+ "/" +:+ f.
Proof.
  intros Hf. unfold path_join at 1. rewrite Hf.
  destruct (output_directory_shape e) as [a ->].
  now rewrite StrFacts.eqb_app_cons_empty, StrFacts.endswith_char_app.
Qed.

(** An absolute name replaces the output directory. *)
Lemma path_join_absolute a f :
  Str.startswith "/" f = true -> path_join a f = f.
Proof. intros Hf. unfold path_join. now rewrite Hf. Qed.

Lemma plan_path_named e b :
  Str.startswith "/" (name b) = false ->
  plan_path e (name b) = Stated.named_path e b.
Proof.
  intros H. unfold plan_path, generate_filename, Stated.named_path.
  rewrite path_join_output_directory.
  - now rewrite !StrFacts.app_assoc.
  - rewrite !StrFacts.app_assoc.
    change ("_" +:+ ?x) with (String "_" x).
    now rewrite StrFacts.startswith_slash_title.
Qed.

(** The name of the file does not tell the microsecond. *)
Lemma strftime_seconds y mo d h mi s us us' :
  strftime (Datetime y mo d h mi s us) = strftime (Datetime y mo d h mi s us').
Proof. reflexivity. Qed.

(** ** The handler of one record *)

Lemma process_business_unfold e w b :
  process_business e w b
  = let plan := fst (generate_business_plan e w b "mistral") in
    let w1 := spawn w (ollama_argv "mistral" b) in
    if Str.contains "Error" plan
    then log_error e w1 b (Exception plan)
    else (Return (fst (save_business_plan e w1 b plan)),
          snd (save_business_plan e w1 b plan)).
Proof.
  unfold process_business.
  rewrite <- (generate_business_plan_world e w b "mistral").
  destruct (generate_business_plan e w b "mistral") as [plan w1].
  cbn [fst snd]. destruct (Str.contains "Error" plan); [reflexivity|].
  now destruct (save_business_plan e w1 b plan).
Qed.

(** A write that does not fail writes the whole text. *)
Lemma write_outcome_none e path text :
  write_error e path text = None -> write_outcome e path text = None.
Proof. intros H. unfold write_outcome. now destruct text. Qed.

Lemma written_all e path text :
  write_error e path text = None -> written e path text = text.
Proof. intros H. unfold written. now rewrite write_outcome_none. Qed.

(** The [except] block, case by case. *)
Lemma log_error_unfold e w b x :
  log_error e w b x
  = let message :=
      "Error processing '" +:+ name b +:+ "': " +:+ str_of_exn x +:+ nl in
    let log := error_log_path e in
    match open_error e log with
    | Some x' => (Raise x', w)
    | None =>
        (match write_error e log message with
         | None => Return message
         | Some (x', _) => Raise x'
         end,
         set_files w
           (<[log := default "" (files w !! log) +:+ written e log message]>
              (files w)))
    end.
Proof.
  unfold log_error, append_file. cbv zeta.
  destruct (open_error e (error_log_path e)); [reflexivity|].
  change (write_outcome e (error_log_path e)
            ("Error processing '" +:+ name b +:+ "': " +:+ str_of_exn x
             +:+ nl))
    with (write_error e (error_log_path e)
            ("Error processing '" +:+ name b +:+ "': " +:+ str_of_exn x
             +:+ nl)).
  now destruct (write_error e (error_log_path e) _) as [[x' n]|].
Qed.

Ltac handler_cases e b :=
  rewrite ?process_business_unfold; cbv zeta;
  rewrite ?log_error_unfold; cbv zeta;
  unfold save_business_plan; cbv zeta;
  destruct (Str.contains "Error" _);
  [ destruct (open_error e (error_log_path e));
    [| destruct (write_error e (error_log_path e) _) as [[? ?]|] ]
  | destruct (open_error e (plan_path e (name b)));
    [| destruct (write_outcome e (plan_path e (name b)) _) as [[? ?]|] ] ].

(** The text returned for a record does not depend on the world. *)
Lemma process_business_result e w w' b :
  fst (process_business e w b) = fst (process_business e w' b).
Proof.
  rewrite !process_business_unfold. cbv zeta.
  rewrite (generate_business_plan_text e w w' b "mistral").
  handler_cases e b; reflexivity.
Qed.

(** The handler runs the tool once, for its record. *)
Lemma process_business_spawned e w b :
  spawned (snd (process_business e w b))
  = (spawned w ++ [ollama_argv "mistral" b])%list.
Proof. handler_cases e b; reflexivity. Qed.

Lemma process_business_console e w b :
  console (snd (process_business e w b)) = console w.
Proof. handler_cases e b; reflexivity. Qed.

(** The plan of a run that exits with code 0. *)
Lemma plan_of_exit_0 e w b p :
  subprocess_run e (ollama_argv "mistral" b) = inr p ->
  returncode p = 0%Z ->
  fst (generate_business_plan e w b "mistral") = Str.strip (stdout p).
Proof.
  intros Hrun Hcode. unfold generate_business_plan.
  now rewrite Hrun, Hcode.
Qed.

(** The plan of a failed run carries the word Error. *)
Lemma plan_of_failure e w b :
  Stated.tool_failed e b ->
  Str.contains "Error" (fst (generate_business_plan e w b "mistral")) = true.
Proof.
  unfold Stated.tool_failed, generate_business_plan.
  destruct (subprocess_run e (ollama_argv "mistral" b)) as [x|p];
    [reflexivity|].
  intros Hcode. destruct (Z.eqb_spec (returncode p) 0); [contradiction|].
  reflexivity.
Qed.

Lemma contains_Error_strip s :
  Str.contains "Error" (Str.strip s) = Str.contains "Error" s.
Proof. now apply StrFacts.contains_strip. Qed.

Lemma contains_saved_strip s :
  Str.contains "saved" (Str.strip s) = Str.contains "saved" s.
Proof. now apply StrFacts.contains_strip. Qed.

(** *** A successful run *)

(** What the handler returns and what happens to the files when the plan
    is free of the word Error and its file is opened and written. *)
Lemma process_business_writes e w b p :
  subprocess_run e (ollama_argv "mistral" b) = inr p ->
  returncode p = 0%Z ->
  Str.contains "Error" (stdout p) = false ->
  open_error e (plan_path e (name b)) = None ->
  write_error e (plan_path e (name b)) (Str.strip (stdout p)) = None ->
  process_business e w b
  = (Return ("Business plan saved: " +:+ plan_path e (name b)),
     set_files (spawn w (ollama_argv "mistral" b))
               (<[plan_path e (name b) := Str.strip (stdout p)]> (files w))).
Proof.
  intros Hrun Hcode Hword Hopen Hwrite.
  rewrite process_business_unfold. cbv zeta.
  rewrite (plan_of_exit_0 e w b p Hrun Hcode), contains_Error_strip, Hword.
  unfold save_business_plan. cbv zeta.
  now rewrite Hopen, (written_all _ _ _ Hwrite), (write_outcome_none _ _ _ Hwrite).
Qed.

(** The file of a record whose name does not begin with a slash has the
    path that the specification names. *)
Lemma process_business_saves e w b p :
  subprocess_run e (ollama_argv "mistral" b) = inr p ->
  returncode p = 0%Z ->
  Str.contains "Error" (stdout p) = false ->
  open_error e (plan_path e (name b)) = None ->
  write_error e (plan_path e (name b)) (Str.strip (stdout p)) = None ->
  let path := plan_path e (name b) in
  let w' := snd (process_business e w b) in
  fst (process_business e w b) = Return ("Business plan saved: " +:+ path)
  /\ files w' = <[path := Str.strip (stdout p)]> (files w)
  /\ (Str.startswith "/" (name b) = false -> path = Stated.named_path e b)
  /\ (files w !! path = None ->
      dom (files w') ∖ dom (files w) = ({[path]} : gset string))
  /\ (is_Some (files w !! path) -> dom (files w') = dom (files w)).
Proof.
  intros Hrun Hcode Hword Hopen Hwrite path w'.
  subst w'.
  rewrite (process_business_writes e w b p Hrun Hcode Hword Hopen Hwrite).
  fold path. cbn [fst snd set_files files].
  split; [reflexivity|]. split; [reflexivity|].
  split; [apply plan_path_named|]. split.
  - intros Hnew. rewrite dom_insert_L.
    apply not_elem_of_dom in Hnew.
    apply set_eq. intros x.
    rewrite elem_of_difference, elem_of_union, elem_of_singleton.
    split; [tauto|]. intros ->. tauto.
  - intros Hold. rewrite dom_insert_L.
    apply elem_of_dom in Hold.
    apply set_eq. intros x. rewrite elem_of_union, elem_of_singleton.
    split; [|tauto]. intros [->|Hx]; assumption.
Qed.

(** The content of the file is not the captured standard output as it
    is: the tool prints a plan and a line feed and exits with code 0, the
    file is written, and its content lacks the line feed. *)
Lemma process_business_file_not_stdout :
  ~ Stated.one_new_file_with_stdout
      (Sample.machine (inr (CompletedProcess 0 ("PLAN TEXT" +:+ nl)))
                      Sample.writable)
      Sample.blank Sample.acme.
Proof.
  intros H.
  destruct (H (CompletedProcess 0 ("PLAN TEXT" +:+ nl)) eq_refl eq_refl)
    as [_ Hcontent].
  - exists "/home/u/bp/Generated_Business_Plans/acme_2024-03-07_09-05-02.txt".
    vm_compute. reflexivity.
  - vm_compute in Hcontent. discriminate Hcontent.
Qed.

(** A name that begins with a slash takes the file out of the output
    directory. *)
Lemma plan_path_absolute e n :
  Str.startswith "/" n = true ->
  plan_path e n = generate_filename e n +:+ ".txt".
Proof.
  intros H. unfold plan_path. apply path_join_absolute.
  unfold generate_filename. cbv zeta. rewrite !StrFacts.app_assoc.
  change ("_" +:+ ?x) with (String "_" x).
  now rewrite StrFacts.startswith_slash_title.
Qed.

(** A plan written over a file of the same path adds no file. *)
Lemma process_business_overwrites :
  let e := Sample.machine (inr (CompletedProcess 0 "NEW PLAN"))
                          Sample.writable in
  let path :=
    "/home/u/bp/Generated_Business_Plans/acme_2024-03-07_09-05-02.txt" in
  let w := World {[ path := "OLD PLAN" ]} [] [] in
  files (snd (process_business e w Sample.acme)) = {[ path := "NEW PLAN" ]}.
Proof.
  intros e path w.
  rewrite (process_business_writes e w Sample.acme
             (CompletedProcess 0 "NEW PLAN")
             eq_refl eq_refl eq_refl eq_refl eq_refl).
  apply insert_singleton_eq.
Qed.

(** *** A name that is no file name *)

Lemma nat_of_digit n : nat_of_ascii (digit n) = (48 + n mod 10)%nat.
Proof.
  unfold digit. apply nat_ascii_embedding.
  pose proof (Nat.mod_upper_bound n 10). lia.
Qed.

(** A digit is none of the characters below "0" or above "9". *)
Lemma digit_neq n c :
  (nat_of_ascii c < 48 \/ 57 < nat_of_ascii c)%nat ->
  Ascii.eqb (digit n) c = false.
Proof.
  intros Hc. destruct (Ascii.eqb (digit n) c) eqn:E; [|reflexivity].
  apply Ascii.eqb_eq in E. subst c. rewrite nat_of_digit in Hc.
  pose proof (Nat.mod_upper_bound n 10). lia.
Qed.

(** No capital G is left in a lowered text, and none is in a time stamp. *)
Lemma lower_char_no_G c : Ascii.eqb (Str.lower_char c) "G" = false.
Proof. destruct c as [[] [] [] [] [] [] [] []]; reflexivity. Qed.

Lemma lower_no_G s : Str.has_char "G" (Str.lower s) = false.
Proof.
  induction s as [|c s IH]; [reflexivity|].
  cbn [Str.lower Str.has_char]. now rewrite lower_char_no_G, IH.
Qed.

Lemma strftime_no_G t : Str.has_char "G" (strftime t) = false.
Proof.
  destruct t as [y mo d h mi s us].
  unfold strftime, four_digits, two_digits.
  cbn [year month day hour minute second String.append Str.has_char].
  rewrite !digit_neq
    by (right; change (nat_of_ascii "G") with 71%nat; lia).
  reflexivity.
Qed.

Lemma startswith_has_char c p s :
  Str.startswith p s = true ->
  Str.has_char c p = true -> Str.has_char c s = true.
Proof.
  revert s. induction p as [|a p IH]; intros s Hp Hc; [discriminate Hc|].
  destruct s as [|x s]; [discriminate Hp|].
  cbn [Str.startswith] in Hp. cbn [Str.has_char] in *.
  destruct (Ascii.eqb_spec a x) as [->|]; [|discriminate Hp].
  destruct (Ascii.eqb x c); [reflexivity|].
  cbn [orb] in *. now apply IH.
Qed.

(** The title of a file alone, without the directory, is never under the
    output directory: the name of that directory has a capital G, and a
    title has none. *)
Lemma title_outside e e' n :
  Stated.under_output_directory e (generate_filename e' n +:+ ".txt") = false.
Proof.
  unfold Stated.under_output_directory.
  destruct (Str.startswith _ _) eqn:Hunder; [|reflexivity].
  apply (startswith_has_char "G") in Hunder.
  - unfold generate_filename in Hunder. cbv zeta in Hunder.
    rewrite !StrFacts.has_char_app, lower_no_G, strftime_no_G in Hunder.
    discriminate Hunder.
  - destruct (output_directory_shape e) as [a ->].
    rewrite !StrFacts.has_char_app. cbn. now rewrite orb_true_r.
Qed.

(** C3, where the code departs from it.  The title that
    [generate_filename] makes is not safe as a file name: only spaces are
    replaced.  When the tool exits with code 0, the file is written and
    the name of the record begins with a slash, [os.path.join] drops the
    output directory: the plan is written at the title alone and reported
    as saved there, and this path is not under the output directory. *)
Theorem process_business_leaves_output_directory e w b p :
  subprocess_run e (ollama_argv "mistral" b) = inr p ->
  returncode p = 0%Z ->
  Str.contains "Error" (stdout p) = false ->
  Str.startswith "/" (name b) = true ->
  open_error e (plan_path e (name b)) = None ->
  write_error e (plan_path e (name b)) (Str.strip (stdout p)) = None ->
  let path := generate_filename e (name b) +:+ ".txt" in
  fst (process_business e w b) = Return ("Business plan saved: " +:+ path)
  /\ files (snd (process_business e w b))
     = <[path := Str.strip (stdout p)]> (files w)
  /\ Stated.under_output_directory e path = false.
Proof.
  intros Hrun Hcode Hword Hslash Hopen Hwrite path.
  rewrite (process_business_writes e w b p Hrun Hcode Hword Hopen Hwrite).
  rewrite (plan_path_absolute e (name b) Hslash). fold path.
  cbn [fst snd set_files files].
  split; [reflexivity|]. split; [reflexivity|].
  apply title_outside.
Qed.

Lemma process_business_leaves_output_directory_witness :
  let e := Sample.machine (inr (CompletedProcess 0 ("PLAN TEXT" +:+ nl)))
                          Sample.writable in
  let path := "/tmp/pwned_2024-03-07_09-05-02.txt" in
  fst (process_business e Sample.blank Sample.pwned)
  = Return ("Business plan saved: " +:+ path)
  /\ files (snd (process_business e Sample.blank Sample.pwned))
     = <[path := "PLAN TEXT"]> (files Sample.blank)
  /\ Stated.under_output_directory e path = false.
Proof.
  intros e path.
  exact (process_business_leaves_output_directory e Sample.blank Sample.pwned
           (CompletedProcess 0 ("PLAN TEXT" +:+ nl))
           eq_refl eq_refl eq_refl eq_refl eq_refl eq_refl).
Defined.

(** A name that begins with two dots leads out of the output directory as
    well: the file is written beside that directory. *)
Example process_business_dotted_name :
  let e := Sample.machine (inr (CompletedProcess 0 "PLAN TEXT"))
                          Sample.writable in
  let path :=
    "/home/u/bp/Generated_Business_Plans/../pwned_2024-03-07_09-05-02.txt" in
  process_business e Sample.blank Sample.dotted
  = (Return ("Business plan saved: " +:+ path),
     World {[ path := "PLAN TEXT" ]}
           [ollama_argv "mistral" Sample.dotted] []).
Proof.
  intros e path.
  rewrite (process_business_writes e Sample.blank Sample.dotted
             (CompletedProcess 0 "PLAN TEXT")
             eq_refl eq_refl eq_refl eq_refl eq_refl).
  reflexivity.
Qed.

(** *** A failed run *)

(** What the handler returns and what happens to the files when the plan
    carries the word Error and the message is appended to the log. *)
Lemma process_business_logs e w b :
  let plan := fst (generate_business_plan e w b "mistral") in
  let message := "Error processing '" +:+ name b +:+ "': " +:+ plan +:+ nl in
  let log := error_log_path e in
  Str.contains "Error" plan = true ->
  open_error e log = None ->
  write_error e log message = None ->
  process_business e w b
  = (Return message,
     set_files (spawn w (ollama_argv "mistral" b))
               (<[log := default "" (files w !! log) +:+ message]> (files w))).
Proof.
  intros plan message log Hword Hopen Hwrite.
  rewrite process_business_unfold. cbv zeta. fold plan. rewrite Hword.
  rewrite log_error_unfold. cbv zeta. cbn [str_of_exn].
  fold message log. now rewrite Hopen, Hwrite, (written_all _ _ _ Hwrite).
Qed.

(** The message is one line when the name and the error text are. *)
Lemma error_message_one_line n t :
  Str.has_char newline n = false ->
  Str.has_char newline t = false ->
  Stated.one_line ("Error processing '" +:+ n +:+ "': " +:+ t +:+ nl) = true.
Proof.
  intros Hn Ht.
  replace ("Error processing '" +:+ n +:+ "': " +:+ t +:+ nl)
    with (("Error processing '" +:+ n +:+ "': " +:+ t) +:+ nl)
    by now rewrite !StrFacts.app_assoc.
  rewrite StrFacts.one_line_app, !StrFacts.has_char_app, Hn, Ht.
  reflexivity.
Qed.

(** The word saved is in the message only when it is in the name or in the
    error text. *)
Lemma error_message_saved n t :
  Str.contains "saved" ("Error processing '" +:+ n +:+ "': " +:+ t +:+ nl)
  = Str.contains "saved" n || Str.contains "saved" t.
Proof.
  change ("Error processing '" +:+ n +:+ "': " +:+ t +:+ nl)
    with ("Error processing " +:+ String "'" (n +:+ String "'" (String ":"
            (String " " (t +:+ String newline ""))))).
  rewrite (StrFacts.contains_app_sep "'" "s" "aved" "Error processing ")
    by reflexivity.
  rewrite (StrFacts.contains_app_sep "'" "s" "aved" n) by reflexivity.
  change (Str.contains "saved"
            (String ":" (String " " (t +:+ String newline ""))))
    with (Str.contains "saved" (t +:+ String newline "")).
  rewrite (StrFacts.contains_app_sep newline "s" "aved" t) by reflexivity.
  change (Str.contains "saved" "Error processing ") with false.
  change (Str.contains "saved" "") with false.
  now rewrite orb_false_r.
Qed.

(** C4, amended. When the tool fails (a code other than 0, or an
    exception) and the append to the error log succeeds (the log is
    opened, written and closed without an exception), the handler leaves
    every file but the log as it was, and appends to the log one message,
    "Error processing '<name>': <error text>" and a line feed; the message
    is a single line when neither the name nor the error text holds a line
    feed, and the error text of a non-zero exit holds none. *)
Theorem process_business_tool_failure e w b :
  let plan := fst (generate_business_plan e w b "mistral") in
  let message := "Error processing '" +:+ name b +:+ "': " +:+ plan +:+ nl in
  let log := error_log_path e in
  let w' := snd (process_business e w b) in
  Stated.tool_failed e b ->
  open_error e log = None ->
  write_error e log message = None ->
  fst (process_business e w b) = Return message
  /\ (forall path, path <> log -> files w' !! path = files w !! path)
  /\ files w' !! log = Some (default "" (files w !! log) +:+ message)
  /\ (Str.has_char newline (name b) = false ->
      Str.has_char newline plan = false ->
      Stated.one_line message = true)
  /\ match subprocess_run e (ollama_argv "mistral" b) with
     | inl x => plan = "Error: " +:+ str_of_exn x
     | inr _ => Str.has_char newline plan = false
     end.
Proof.
  intros plan message log w' Hfail Hopen Hwrite.
  subst w'.
  rewrite (process_business_logs e w b (plan_of_failure e w b Hfail)
             Hopen Hwrite).
  cbn [fst snd set_files files]. fold plan message log.
  split; [reflexivity|]. split.
  { intros path Hpath. now apply lookup_insert_ne. }
  split; [apply lookup_insert_eq|]. split.
  { apply error_message_one_line. }
  subst plan. unfold Stated.tool_failed, generate_business_plan in *.
  destruct (subprocess_run e (ollama_argv "mistral" b)) as [x|p];
    [reflexivity|].
  destruct (Z.eqb_spec (returncode p) 0); [contradiction | reflexivity].
Qed.

Lemma process_business_tool_failure_witness :
  let e := Sample.machine (inr (CompletedProcess 1 "")) Sample.writable in
  let message :=
    "Error processing 'Acme': Error: AI model failed to generate business plan."
    +:+ nl in
  let log := "/home/u/bp/Generated_Business_Plans/error_log.txt" in
  let w' := snd (process_business e Sample.blank Sample.acme) in
  fst (process_business e Sample.blank Sample.acme) = Return message
  /\ (forall path, path <> log ->
                   files w' !! path = files Sample.blank !! path)
  /\ files w' !! log = Some message
  /\ Stated.one_line message = true.
Proof.
  intros e message log w'.
  destruct (process_business_tool_failure e Sample.blank Sample.acme)
    as (Hr & Hfiles & Hlog & Hline & _).
  - intros H. discriminate H.
  - reflexivity.
  - reflexivity.
  - exact (conj Hr (conj Hfiles (conj Hlog (Hline eq_refl eq_refl)))).
Defined.

(** C4 as worded fails three times over.  When the output directory is
    read only, the tool exits with code 1 and nothing is appended to the
    log.  When the name of the record holds a line feed, two lines are
    appended.  When the disk is full after four characters, what is
    appended is no line. *)
Lemma process_business_not_one_line :
  ~ Stated.failure_logs_one_line
      (Sample.machine (inr (CompletedProcess 1 "")) Sample.read_only)
      Sample.blank Sample.acme
  /\ ~ Stated.failure_logs_one_line
        (Sample.machine (inr (CompletedProcess 1 "")) Sample.writable)
        Sample.blank Sample.two_lines
  /\ ~ Stated.failure_logs_one_line
        (Sample.full_disk
           (Sample.machine (inr (CompletedProcess 1 "")) Sample.writable) 4)
        Sample.blank Sample.acme.
Proof.
  split; [|split]; intros H.
  - destruct H as (_ & t & _ & Hlog).
    + intros Hcode. discriminate Hcode.
    + vm_compute in Hlog. discriminate Hlog.
  - destruct H as (_ & t & Hline & Hlog).
    + intros Hcode. discriminate Hcode.
    + vm_compute in Hlog. injection Hlog as <-.
      vm_compute in Hline. discriminate Hline.
  - destruct H as (_ & t & Hline & Hlog).
    + intros Hcode. discriminate Hcode.
    + vm_compute in Hlog. injection Hlog as <-.
      vm_compute in Hline. discriminate Hline.
Qed.

(** *** A plan that carries the word Error *)

(** C9. There are records for which the tool exits with code 0 and the
    handler still fails: when the captured output holds the word Error and
    the message is appended to the log, no output file is written; the
    record is counted as a failure, as the word saved is neither in its
    name nor in the output. *)
Theorem process_business_error_word e w b p :
  let message :=
    "Error processing '" +:+ name b +:+ "': " +:+ Str.strip (stdout p)
    +:+ nl in
  let log := error_log_path e in
  let w' := snd (process_business e w b) in
  subprocess_run e (ollama_argv "mistral" b) = inr p ->
  returncode p = 0%Z ->
  Str.contains "Error" (stdout p) = true ->
  open_error e log = None ->
  write_error e log message = None ->
  Str.contains "saved" (name b) = false ->
  Str.contains "saved" (stdout p) = false ->
  fst (process_business e w b) = Return message
  /\ (forall path, path <> log -> files w' !! path = files w !! path)
  /\ files w' !! log = Some (default "" (files w !! log) +:+ message)
  /\ Str.contains "saved" message = false
  /\ success_count [message] = 0%Z.
Proof.
  intros message log w' Hrun Hcode Hword Hopen Hwrite Hname Hout.
  pose proof (plan_of_exit_0 e w b p Hrun Hcode) as Hplan.
  assert (Hsaved : Str.contains "saved" message = false).
  { subst message.
    now rewrite error_message_saved, contains_saved_strip, Hname, Hout. }
  subst w'. rewrite process_business_logs.
  - rewrite Hplan. fold message log. cbn [fst snd set_files files].
    split; [reflexivity|]. split.
    { intros path Hpath. now apply lookup_insert_ne. }
    split; [apply lookup_insert_eq|]. split; [exact Hsaved|].
    unfold success_count. cbn [List.filter]. now rewrite Hsaved.
  - now rewrite Hplan, contains_Error_strip.
  - exact Hopen.
  - rewrite Hplan. exact Hwrite.
Qed.

Lemma process_business_error_word_witness :
  let e :=
    Sample.machine
      (inr (CompletedProcess 0 ("Plan: budget for Error handling." +:+ nl)))
      Sample.writable in
  let message :=
    "Error processing 'Acme': Plan: budget for Error handling." +:+ nl in
  let log := "/home/u/bp/Generated_Business_Plans/error_log.txt" in
  let w' := snd (process_business e Sample.blank Sample.acme) in
  fst (process_business e Sample.blank Sample.acme) = Return message
  /\ (forall path, path <> log ->
                   files w' !! path = files Sample.blank !! path)
  /\ files w' !! log = Some message
  /\ Str.contains "saved" message = false
  /\ success_count [message] = 0%Z.
Proof.
  intros e message log w'.
  exact (process_business_error_word e Sample.blank Sample.acme
           (CompletedProcess 0 ("Plan: budget for Error handling." +:+ nl))
           eq_refl eq_refl eq_refl eq_refl eq_refl eq_refl eq_refl).
Defined.

(** *** A plan file that cannot be written *)

(** C5, where the code departs from it. When the tool exits with code 0,
    its output is free of the word Error and the plan file cannot be
    opened, the handler returns "Error saving file: <exception>" and
    touches no file: nothing is appended to the error log. *)
Theorem process_business_write_failure e w b p x :
  subprocess_run e (ollama_argv "mistral" b) = inr p ->
  returncode p = 0%Z ->
  Str.contains "Error" (stdout p) = false ->
  open_error e (plan_path e (name b)) = Some x ->
  fst (process_business e w b) = Return ("Error saving file: " +:+ str_of_exn x)
  /\ files (snd (process_business e w b)) = files w.
Proof.
  intros Hrun Hcode Hword Hopen.
  rewrite process_business_unfold. cbv zeta.
  rewrite (plan_of_exit_0 e w b p Hrun Hcode), contains_Error_strip, Hword.
  unfold save_business_plan. cbv zeta. rewrite Hopen.
  split; reflexivity.
Qed.

Lemma process_business_write_failure_witness :
  let e := Sample.machine (inr (CompletedProcess 0 "PLAN TEXT"))
                          Sample.only_log in
  open_error e (error_log_path e) = None
  /\ fst (process_business e Sample.blank Sample.slashed)
     = Return ("Error saving file: [Errno 2] No such file or directory: "
               +:+ "'/home/u/bp/Generated_Business_Plans/"
               +:+ "a/b_2024-03-07_09-05-02.txt'")
  /\ files (snd (process_business e Sample.blank Sample.slashed)) = ∅.
Proof.
  intros e. split; [reflexivity|].
  exact (process_business_write_failure e Sample.blank Sample.slashed
           (CompletedProcess 0 "PLAN TEXT")
           (FileNotFoundError
              ("[Errno 2] No such file or directory: "
               +:+ "'/home/u/bp/Generated_Business_Plans/"
               +:+ "a/b_2024-03-07_09-05-02.txt'"))
           eq_refl eq_refl eq_refl eq_refl).
Defined.

(** A plan file that is opened and cannot be written to its end is not
    logged either: what was written stays in the file, and the handler
    returns the text of the exception. *)
Example process_business_disk_full :
  let e :=
    Sample.full_disk
      (Sample.machine (inr (CompletedProcess 0 "PLAN TEXT")) Sample.writable)
      4 in
  process_business e Sample.blank Sample.acme
  = (Return "Error saving file: [Errno 28] No space left on device",
     World {[ "/home/u/bp/Generated_Business_Plans/acme_2024-03-07_09-05-02.txt"
              := "PLAN" ]}
           [ollama_argv "mistral" Sample.acme] []).
Proof. vm_compute. reflexivity. Qed.

(** *** Totality *)

(** C10, amended. The handler returns a string, and no exception leaves
    it, unless the append to the error log in the [except] block raises: a
    plan file that cannot be written ends in a returned string, and so do
    a failure of the tool and a plan that carries the word Error when the
    log is opened, written and closed; when opening the log raises, or
    writing or closing it, that exception leaves the handler. *)
Theorem process_business_returns e w b :
  let plan := fst (generate_business_plan e w b "mistral") in
  let message := "Error processing '" +:+ name b +:+ "': " +:+ plan +:+ nl in
  let log := error_log_path e in
  if Str.contains "Error" plan
  then match open_error e log with
       | Some x => fst (process_business e w b) = Raise x
       | None =>
           match write_error e log message with
           | Some (x, _) => fst (process_business e w b) = Raise x
           | None => fst (process_business e w b) = Return message
           end
       end
  else exists r, fst (process_business e w b) = Return r.
Proof.
  intros plan message log.
  rewrite process_business_unfold. cbv zeta. fold plan.
  destruct (Str.contains "Error" plan).
  - rewrite log_error_unfold. cbv zeta. cbn [str_of_exn].
    fold message log.
    destruct (open_error e log); [reflexivity|].
    now destruct (write_error e log message) as [[x n]|].
  - cbn [fst]. eauto.
Qed.

(** C10 as worded fails: the output directory is read only and the tool
    exits with code 1; the exception of the log leaves the handler. *)
Lemma process_business_raises :
  ~ Stated.always_returns
      (Sample.machine (inr (CompletedProcess 1 "")) Sample.read_only)
      Sample.blank Sample.acme.
Proof. intros [r H]. vm_compute in H. discriminate H. Qed.

(** The same with a log that is opened and cannot be written to its end:
    the exception leaves the handler, and a part of the message is in the
    log. *)
Example process_business_log_disk_full :
  let e :=
    Sample.full_disk
      (Sample.machine (inr (CompletedProcess 1 "")) Sample.writable) 4 in
  process_business e Sample.blank Sample.acme
  = (Raise (OSError "[Errno 28] No space left on device"),
     World {[ "/home/u/bp/Generated_Business_Plans/error_log.txt" := "Erro" ]}
           [ollama_argv "mistral" Sample.acme] []).
Proof. vm_compute. reflexivity. Qed.

(** ** The plan files and the error log *)

Lemma length_app a b :
  String.length (a +:+ b) = (String.length a + String.length b)%nat.
Proof.
  induction a as [|x a IH]; [reflexivity|].
  cbn [String.append String.length]. now rewrite IH.
Qed.

Lemma path_join_suffix a b : exists pre, path_join a b = pre +:+ b.
Proof.
  unfold path_join. destruct (Str.startswith "/" b).
  - now exists "".
  - destruct (_ || _).
    + now exists a.
    + exists (a +:+ "/"). now rewrite StrFacts.app_assoc.
Qed.

(** Two texts with equally long ends are equal only when the ends are. *)
Lemma app_inj_suffix a b s t :
  String.length s = String.length t -> a +:+ s = b +:+ t -> s = t.
Proof.
  intros Hlen. revert b. induction a as [|x a IH]; intros [|y b] H.
  - exact H.
  - cbn [String.append] in H. subst s.
    cbn [String.length] in Hlen. rewrite length_app in Hlen. lia.
  - cbn [String.append] in H. subst t.
    cbn [String.length] in Hlen. rewrite length_app in Hlen. lia.
  - cbn [String.append] in H. injection H as _ H. exact (IH b H).
Qed.

Lemma strftime_end t :
  exists pre, strftime t = pre +:+ String (digit (second t)) "".
Proof.
  exists (four_digits (year t) +:+ "-" +:+ two_digits (month t) +:+ "-"
          +:+ two_digits (day t) +:+ "_" +:+ two_digits (hour t) +:+ "-"
          +:+ two_digits (minute t) +:+ "-"
          +:+ String (digit (second t / 10)) "").
  unfold strftime. rewrite !StrFacts.app_assoc. reflexivity.
Qed.

Lemma plan_path_end e n :
  exists pre,
    plan_path e n = pre +:+ String (digit (second (now e))) ".txt".
Proof.
  unfold plan_path.
  destruct (path_join_suffix (output_directory e)
              (generate_filename e n +:+ ".txt")) as [pre ->].
  unfold generate_filename. cbv zeta.
  destruct (strftime_end (now e)) as [a ->].
  exists (pre +:+ Str.lower (Str.replace_char " " "_" n) +:+ "_" +:+ a).
  rewrite !StrFacts.app_assoc. reflexivity.
Qed.

Lemma error_log_path_end e : exists pre, error_log_path e = pre +:+ "g.txt".
Proof.
  unfold error_log_path.
  destruct (path_join_suffix (output_directory e) "error_log.txt")
    as [pre ->].
  exists (pre +:+ "error_lo"). now rewrite StrFacts.app_assoc.
Qed.

(** The file of a plan is not the error log. *)
Lemma plan_path_not_log e e' n : plan_path e n <> error_log_path e'.
Proof.
  destruct (plan_path_end e n) as [pre ->].
  destruct (error_log_path_end e') as [pre' ->].
  intros H. apply app_inj_suffix in H; [|reflexivity].
  injection H as H.
  assert (Hneq : Ascii.eqb (digit (second (now e))) "g" = false).
  { apply digit_neq. change (nat_of_ascii "g") with 103%nat. lia. }
  rewrite H in Hneq. discriminate Hneq.
Qed.

(** ** The steps of a handler *)

Lemma run_effects_app w fs gs :
  run_effects w (fs ++ gs) = run_effects (run_effects w fs) gs.
Proof. apply fold_left_app. Qed.


Lemma app_empty_r a : a +:+ "" = a.
Proof.
  induction a as [|x a IH]; [reflexivity|].
  cbn [String.append]. now rewrite IH.
Qed.





(** The steps of a handler: it runs a subprocess, appends to the error
    log, and empties and writes its plan file. *)
Lemma handler_effects_shape e w b f :
  In f (handler_effects e w b) ->
  (exists argv, f = Spawn argv)
  \/ (exists text, f = Append (error_log_path e) text)
  \/ f = Truncate (plan_path e (name b))
  \/ (exists text, f = WriteAt (plan_path e (name b)) text).
Proof.
  unfold handler_effects, log_effects, save_effects. cbv zeta.
  destruct (Str.contains "Error" _).
  - destruct (open_error e (error_log_path e)); cbn [In];
      intros H; repeat destruct H as [<-|H]; try contradiction; eauto.
  - destruct (open_error e (plan_path e (name b))); cbn [In];
      intros H; repeat destruct H as [<-|H]; try contradiction; eauto 6.
Qed.

Lemma run_effect_console w f : console (run_effect w f) = console w.
Proof. now destruct f. Qed.

Lemma run_effects_console w fs : console (run_effects w fs) = console w.
Proof.
  revert w. induction fs as [|f fs IH]; intros w; [reflexivity|].
  cbn [run_effects fold_left]. fold (run_effects (run_effect w f) fs).
  now rewrite IH, run_effect_console.
Qed.


(** A step that does not touch a path leaves the file there as it is, and
    what a step leaves at a path depends on what was there alone. *)
Lemma run_effect_other w f path :
  touches path f = false ->
  files (run_effect w f) !! path = files w !! path.
Proof.
  destruct f as [argv|q|q t|q t]; cbn [touches run_effect]; intros H;
    [reflexivity|..]; apply String.eqb_neq in H;
    cbn [set_files files]; now apply lookup_insert_ne.
Qed.




(** ** The schedule *)

Lemma concat_insert_tail {A} (pending : list (list A)) k (f : A) fs :
  pending !! k = Some (f :: fs) ->
  Permutation (f :: concat (<[k := fs]> pending)) (concat pending).
Proof.
  intros Hk.
  rewrite (insert_take_drop _ _ _ (lookup_lt_Some _ _ _ Hk)).
  rewrite <- (take_drop_middle _ _ _ Hk) at 3.
  rewrite !concat_app. cbn [concat].
  rewrite <- app_comm_cons. apply Permutation_middle.
Qed.

(** Every step of every handler is taken once: the steps that the
    schedule takes and the steps that it leaves are the steps of the
    handlers, in another order. *)
Lemma run_schedule_permutation sched :
  forall pending steps left,
    run_schedule sched pending = (steps, left) ->
    Permutation (steps ++ concat left) (concat pending).
Proof.
  induction sched as [|k sched IH]; intros pending steps left H.
  - injection H as <- <-. reflexivity.
  - cbn [run_schedule] in H.
    destruct (pending !! k) as [[|f fs]|] eqn:Hk;
      [exact (IH _ _ _ H) | | exact (IH _ _ _ H)].
    destruct (run_schedule sched (<[k := fs]> pending)) as [steps' left']
      eqn:Hrest.
    injection H as <- <-. cbn [app].
    rewrite (IH _ _ _ Hrest). now apply concat_insert_tail.
Qed.

Lemma run_schedule_length sched :
  forall pending steps left,
    run_schedule sched pending = (steps, left) ->
    length left = length pending.
Proof.
  induction sched as [|k sched IH]; intros pending steps left H.
  - now injection H as _ <-.
  - cbn [run_schedule] in H.
    destruct (pending !! k) as [[|f fs]|] eqn:Hk;
      [exact (IH _ _ _ H) | | exact (IH _ _ _ H)].
    destruct (run_schedule sched (<[k := fs]> pending)) as [steps' left']
      eqn:Hrest.
    injection H as _ <-.
    now rewrite (IH _ _ _ Hrest), length_insert.
Qed.




(** A step that is taken, or left, is a step of a handler. *)
Lemma run_schedule_in sched pending steps left n f :
  run_schedule sched pending = (steps, left) ->
  In f (steps ++ concat (take n left)) -> In f (concat pending).
Proof.
  intros H Hf.
  apply (Permutation_in _ (run_schedule_permutation _ _ _ _ H)).
  apply in_app_iff in Hf as [Hf|Hf]; apply in_app_iff; [now left | right].
  apply in_concat in Hf as (t & Ht & Hf). apply in_concat.
  exists t. split; [|exact Hf].
  rewrite <- (take_drop n left). apply in_app_iff. now left.
Qed.

(** ** The pool and the summary *)

Lemma sum_ones_from {A} (l : list A) (a : Z) :
  fold_left Z.add (map (fun _ => 1%Z) l) a = (a + Z.of_nat (length l))%Z.
Proof.
  revert a. induction l as [|x l IH]; intros a; cbn [map fold_left length].
  - lia.
  - rewrite IH. lia.
Qed.

(** A result counts as a success exactly when it holds the word saved. *)
Lemma success_count_filter results :
  success_count results
  = Z.of_nat (length (List.filter (Str.contains "saved") results)).
Proof. unfold success_count, sum. now rewrite sum_ones_from. Qed.

Lemma success_count_bounds results :
  (0 <= success_count results <= Z.of_nat (length results))%Z.
Proof.
  rewrite success_count_filter.
  assert (length (List.filter (Str.contains "saved") results)
          <= length results)%nat; [|lia].
  induction results as [|r rs IH]; cbn [List.filter length]; [lia|].
  destruct (Str.contains "saved" r); cbn [length]; lia.
Qed.

(** [exit] is never called in the handler. *)
Lemma process_business_no_exit e w b c :
  fst (process_business e w b) <> Exit c.
Proof. handler_cases e b; discriminate. Qed.


Lemma tasks_lookup_inv workers businesses :
  forall i w k t,
    tasks workers i w businesses !! k = Some t ->
    exists b, businesses !! k = Some b
              /\ t = handler_effects (workers (i + k)%nat) w b.
Proof.
  induction businesses as [|b0 rest IH]; intros i w k t Hk; [discriminate|].
  destruct k as [|k]; cbn [tasks] in Hk.
  - injection Hk as <-. exists b0. now rewrite Nat.add_0_r.
  - replace (i + S k)%nat with (S i + k)%nat by lia. now apply IH.
Qed.

Lemma outcomes_lookup workers businesses :
  forall i w k b,
    businesses !! k = Some b ->
    outcomes workers i w businesses !! k
    = Some (fst (process_business (workers (i + k)%nat) w b)).
Proof.
  induction businesses as [|b0 rest IH]; intros i w k b Hk; [discriminate|].
  destruct k as [|k]; cbn [outcomes].
  - injection Hk as ->. now rewrite Nat.add_0_r.
  - replace (i + S k)%nat with (S i + k)%nat by lia. now apply IH.
Qed.

Lemma outcomes_length workers businesses :
  forall i w, length (outcomes workers i w businesses) = length businesses.
Proof.
  induction businesses as [|b rest IH]; intros i w; [reflexivity|].
  cbn [outcomes length]. now rewrite IH.
Qed.

(** The list of the results is complete exactly when every handler
    returned. *)
Lemma collect_return outs results n :
  collect outs = (Return results, n) -> outs = map Return results.
Proof.
  revert results n. induction outs as [|[r|x|c] outs IH]; intros results n H;
    cbn [collect] in H; [now injection H as <- _ | | discriminate..].
  destruct (collect outs) as [[rs|x|c] m]; [|discriminate..].
  injection H as <- _. cbn [map]. f_equal. exact (IH rs m eq_refl).
Qed.

Lemma collect_map_return results :
  collect (map Return results) = (Return results, 0%nat).
Proof.
  induction results as [|r rs IH]; [reflexivity|].
  cbn [map collect]. now rewrite IH.
Qed.

(** The exception that is raised again is the one of a handler. *)
Lemma collect_raise outs x n :
  collect outs = (Raise x, n) -> outs !! n = Some (Raise x).
Proof.
  revert n. induction outs as [|[r|x0|c] outs IH]; intros n H;
    cbn [collect] in H; [discriminate | | | discriminate].
  - destruct (collect outs) as [[rs|x1|c] m]; [discriminate | | discriminate].
    injection H as <- <-. exact (IH m eq_refl).
  - now injection H as <- <-.
Qed.

Lemma collect_exit outs c n :
  collect outs = (Exit c, n) -> outs !! n = Some (Exit c).
Proof.
  revert n. induction outs as [|[r|x0|c0] outs IH]; intros n H;
    cbn [collect] in H; [discriminate | | discriminate | ].
  - destruct (collect outs) as [[rs|x1|c1] m]; [discriminate | discriminate | ].
    injection H as <- <-. exact (IH m eq_refl).
  - now injection H as <- <-.
Qed.

(** The world that the pool leaves is the world it found after steps of
    the handlers. *)
Lemma imap_steps (workers : pool) i w businesses :
  exists steps left n,
    run_schedule (schedule workers) (tasks workers i w businesses)
    = (steps, left)
    /\ fst (imap workers i w businesses)
       = fst (collect (outcomes workers i w businesses))
    /\ snd (imap workers i w businesses)
       = run_effects w (steps ++ concat (take n left))%list
    /\ (forall results,
          fst (imap workers i w businesses) = Return results ->
          take n left = left).
Proof.
  unfold imap.
  destruct (run_schedule _ _) as [steps left] eqn:Hrun.
  destruct (collect _) as [[results|x|c] j].
  - exists steps, left, (length left). cbn [fst snd].
    rewrite firstn_all. repeat split; reflexivity.
  - exists steps, left, (S j). cbn [fst snd].
    repeat split; try reflexivity. discriminate.
  - exists steps, left, (S j). cbn [fst snd].
    repeat split; try reflexivity. discriminate.
Qed.

Lemma imap_results (workers : pool) i w businesses results w' :
  imap workers i w businesses = (Return results, w') ->
  outcomes workers i w businesses = map Return results.
Proof.
  intros H. destruct (imap_steps workers i w businesses)
    as (steps & left & n & _ & Hfst & _).
  rewrite H in Hfst. cbn [fst] in Hfst.
  destruct (collect _) as [r m] eqn:Hc. cbn [fst] in Hfst. subst r.
  exact (collect_return _ _ _ Hc).
Qed.

Lemma imap_length (workers : pool) i w businesses results w' :
  imap workers i w businesses = (Return results, w') ->
  length results = length businesses.
Proof.
  intros H. apply imap_results in H.
  rewrite <- (outcomes_length workers businesses i w), H.
  now rewrite length_map.
Qed.

(** The result at each place is what the handler returns for the record at
    that place, to the worker of that place. *)
Lemma imap_lookup (workers : pool) i w businesses results w' :
  imap workers i w businesses = (Return results, w') ->
  forall (k : nat) (b : business) (wk : world),
    businesses !! k = Some b ->
    exists r, results !! k = Some r
              /\ fst (process_business (workers (i + k)%nat) wk b) = Return r.
Proof.
  intros H k b wk Hk. apply imap_results in H.
  pose proof (outcomes_lookup workers businesses i w k b Hk) as Ho.
  rewrite H, list_lookup_fmap in Ho.
  destruct (results !! k) as [r|]; [|discriminate Ho].
  exists r. split; [reflexivity|].
  injection Ho as Ho. now rewrite (process_business_result _ wk w b).
Qed.

(** The pool returns a result for every record when every handler
    returns. *)
Lemma imap_returns (workers : pool) i w businesses :
  (forall k b,
      businesses !! k = Some b ->
      exists r, fst (process_business (workers (i + k)%nat) w b) = Return r) ->
  exists results w', imap workers i w businesses = (Return results, w').
Proof.
  intros Hall.
  assert (Houts : exists results,
             outcomes workers i w businesses = map Return results).
  { clear -Hall. revert i Hall.
    induction businesses as [|b rest IH]; intros i Hall; [now exists []|].
    destruct (Hall 0%nat b eq_refl) as [r Hr].
    rewrite Nat.add_0_r in Hr.
    destruct (IH (S i)) as [rs Hrs].
    { intros k b' Hk.
      replace (S i + k)%nat with (i + S k)%nat by lia.
      exact (Hall (S k) b' Hk). }
    exists (r :: rs). cbn [outcomes map]. now rewrite Hr, Hrs. }
  destruct Houts as [results Houts]. exists results.
  unfold imap. destruct (run_schedule _ _) as [steps left].
  rewrite Houts, collect_map_return. eauto.
Qed.

(** A property of the world that every step of every handler keeps is
    kept by the pool, however it ends. *)
Lemma imap_invariant (I : world -> Prop) (workers : pool) i w businesses :
  (forall k b f w0,
      businesses !! k = Some b ->
      In f (handler_effects (workers (i + k)%nat) w b) ->
      I w0 -> I (run_effect w0 f)) ->
  I w -> I (snd (imap workers i w businesses)).
Proof.
  intros Hstep Hw.
  destruct (imap_steps workers i w businesses)
    as (steps & left & n & Hrun & _ & -> & _).
  pose proof (fun f => run_schedule_in _ _ _ _ n f Hrun) as Hin.
  revert Hin. generalize (steps ++ concat (take n left))%list. intros fs.
  assert (Hgen : forall w0, I w0 ->
            (forall f, In f fs ->
                       In f (concat (tasks workers i w businesses))) ->
            I (run_effects w0 fs)); [|exact (fun Hin => Hgen w Hw Hin)].
  clear Hw. induction fs as [|f fs IH]; intros w0 Hw Hin; [exact Hw|].
  cbn [run_effects fold_left]. apply IH.
  - pose proof (Hin f (or_introl eq_refl)) as Hf.
    apply in_concat in Hf as (t & Ht & Hf).
    apply list_elem_of_In, list_elem_of_lookup in Ht as [k Hk].
    apply tasks_lookup_inv in Hk as (b & Hb & ->).
    exact (Hstep k b f w0 Hb Hf Hw).
  - intros g Hg. apply Hin. now right.
Qed.

Lemma imap_console (workers : pool) i w businesses results w' :
  imap workers i w businesses = (Return results, w') ->
  console w' = console w.
Proof.
  intros H. destruct (imap_steps workers i w businesses)
    as (steps & left & n & _ & _ & Hsnd & _).
  rewrite H in Hsnd. cbn [snd] in Hsnd. subst w'.
  apply run_effects_console.
Qed.

Lemma run_schedule_nil sched :
  run_schedule sched [] = ([], []).
Proof. induction sched as [|k sched IH]; [reflexivity | exact IH]. Qed.

(** A pool without records does nothing. *)
Lemma imap_nil (workers : pool) i w : imap workers i w [] = (Return [], w).
Proof. unfold imap. cbn [tasks outcomes]. now rewrite run_schedule_nil. Qed.




Lemma check_dependencies_console e w w1 :
  check_dependencies e w = (Return tt, w1) ->
  console w1 = console w
  /\ spawned w1 = (spawned w ++ [["which"; "ollama"]])%list
  /\ files w1 = files w.
Proof.
  unfold check_dependencies.
  destruct (subprocess_run e ["which"; "ollama"]) as [x|p]; [discriminate|].
  destruct (if (returncode p =? 0)%Z then _ else _); [|discriminate].
  now intros [= <-].
Qed.

Lemma load_businesses_world e w businesses w2 :
  load_businesses e w = (Return businesses, w2) -> w2 = w.
Proof.
  unfold load_businesses.
  destruct (read_csv e (business_csv e)) as [[]|[|header rows]];
    try discriminate.
  now intros [= _ <-].
Qed.

Lemma report_console w businesses results :
  console (report w businesses results)
  = (console w
     ++ [ PrintSummaryHeader;
          PrintTotal (Z.of_nat (length businesses));
          PrintSuccessful (success_count results);
          PrintFailures (failure_count businesses results) ]
     ++ (if (0 <? failure_count businesses results)%Z
         then [PrintCheckLog] else [])
     ++ [PrintComplete])%list.
Proof.
  unfold report. cbv zeta.
  destruct (0 <? failure_count businesses results)%Z;
    cbn [print console app]; now rewrite <- !app_assoc.
Qed.

Lemma report_files w businesses results :
  files (report w businesses results) = files w
  /\ spawned (report w businesses results) = spawned w.
Proof.
  unfold report. cbv zeta.
  now destruct (0 <? failure_count businesses results)%Z.
Qed.

Lemma main_unfold e (workers : pool) w businesses w1 w2 results w3 :
  check_dependencies e w = (Return tt, w1) ->
  load_businesses e w1 = (Return businesses, w2) ->
  imap workers 0
       (print w2 (PrintProcessing (Z.of_nat (length businesses)))) businesses
  = (Return results, w3) ->
  main e workers w = (Return tt, report w3 businesses results).
Proof.
  intros Hcheck Hload Hpool. unfold main.
  now rewrite Hcheck, Hload, Hpool.
Qed.

(** The script runs to its summary when the dependencies are there, the
    input file is read and every handler returns. *)
Lemma main_returns e (workers : pool) w businesses w1 w2 :
  check_dependencies e w = (Return tt, w1) ->
  load_businesses e w1 = (Return businesses, w2) ->
  (forall k b,
      businesses !! k = Some b ->
      exists r, fst (process_business (workers k) w b) = Return r) ->
  exists results w3,
    imap workers 0
         (print w2 (PrintProcessing (Z.of_nat (length businesses)))) businesses
    = (Return results, w3)
    /\ main e workers w = (Return tt, report w3 businesses results).
Proof.
  intros Hcheck Hload Hall.
  destruct (imap_returns workers 0
              (print w2 (PrintProcessing (Z.of_nat (length businesses))))
              businesses)
    as (results & w3 & Hpool).
  { intros k b Hk. destruct (Hall k b Hk) as [r Hr]. exists r.
    now rewrite (process_business_result _ _ w b). }
  exists results, w3. split; [exact Hpool|].
  exact (main_unfold _ _ _ _ _ _ _ _ Hcheck Hload Hpool).
Qed.

(** *** What is in the log *)











(** C6. When the pool returns, the summary is printed and its number of
    successes and its number of failures add up to the number of records
    printed as the total, which is the number of loaded records; neither
    number is negative. *)
Theorem main_summary_adds_up e (workers : pool) w businesses w1 w2 results w3 :
  check_dependencies e w = (Return tt, w1) ->
  load_businesses e w1 = (Return businesses, w2) ->
  imap workers 0
       (print w2 (PrintProcessing (Z.of_nat (length businesses)))) businesses
  = (Return results, w3) ->
  let total := Z.of_nat (length businesses) in
  let successes := success_count results in
  let failures := failure_count businesses results in
  main e workers w = (Return tt, report w3 businesses results)
  /\ console (report w3 businesses results)
     = (console w
        ++ [ PrintProcessing total; PrintSummaryHeader; PrintTotal total;
             PrintSuccessful successes; PrintFailures failures ]
        ++ (if (0 <? failures)%Z then [PrintCheckLog] else [])
        ++ [PrintComplete])%list
  /\ (successes + failures = total)%Z
  /\ (0 <= successes)%Z
  /\ (0 <= failures)%Z.
Proof.
  intros Hcheck Hload Hpool total successes failures.
  split; [exact (main_unfold _ _ _ _ _ _ _ _ Hcheck Hload Hpool)|].
  split.
  { rewrite report_console, (imap_console _ _ _ _ _ _ Hpool).
    cbn [print console].
    rewrite (load_businesses_world _ _ _ _ Hload).
    destruct (check_dependencies_console _ _ _ Hcheck) as [-> _].
    now rewrite <- !app_assoc. }
  pose proof (success_count_bounds results) as Hbounds.
  rewrite (imap_length _ _ _ _ _ _ Hpool) in Hbounds.
  subst total successes failures. unfold failure_count. lia.
Qed.

Lemma main_summary_adds_up_witness :
  main Sample.parent Sample.pool Sample.blank
  = (Return tt, report Sample.processed Sample.businesses Sample.results)
  /\ console (report Sample.processed Sample.businesses Sample.results)
     = [ PrintProcessing 2; PrintSummaryHeader; PrintTotal 2;
         PrintSuccessful 1; PrintFailures 1; PrintCheckLog; PrintComplete ]
  /\ (1 + 1 = 2)%Z
  /\ (0 <= 1)%Z
  /\ (0 <= 1)%Z.
Proof.
  apply (main_summary_adds_up
           Sample.parent Sample.pool Sample.blank Sample.businesses
           Sample.checked Sample.checked Sample.results Sample.processed).
  - reflexivity.
  - reflexivity.
  - vm_compute. reflexivity.
Defined.

(** ** Runs of the whole script *)

(** The example of the specification: one record, a tool that prints
    "PLAN TEXT" and exits with code 0; one file holds exactly that text
    and the summary reports one success and no failure. *)
Example main_acme :
  let e :=
    Sample.with_rows
      (Sample.machine (inr (CompletedProcess 0 "PLAN TEXT")) Sample.writable)
      [ ["name"; "problem"; "solution"; "landing_page"];
        ["Acme"; "too slow"; "faster widget"; "acme.com"] ] in
  let w' := snd (script e (Sample.alone e) Sample.blank) in
  fst (script e (Sample.alone e) Sample.blank) = Return tt
  /\ map_to_list (files w')
     = [ ("/home/u/bp/Generated_Business_Plans/acme_2024-03-07_09-05-02.txt",
          "PLAN TEXT") ]
  /\ console w'
     = [ PrintProcessing 1; PrintSummaryHeader; PrintTotal 1;
         PrintSuccessful 1; PrintFailures 0; PrintComplete ].
Proof. vm_compute. repeat split; reflexivity. Qed.

(** A run in which the plan file cannot be written, and the error log
    can: the summary counts a failure and points to the error log, and
    there is no error log. *)
Example main_write_failure :
  let e :=
    Sample.with_rows
      (Sample.machine (inr (CompletedProcess 0 "PLAN TEXT")) Sample.only_log)
      [ ["name"; "problem"; "solution"; "landing_page"];
        ["A/B"; "too slow"; "faster widget"; "acme.com"] ] in
  let w' := snd (main e (Sample.alone e) Sample.blank) in
  fst (main e (Sample.alone e) Sample.blank) = Return tt
  /\ files w' = ∅
  /\ console w'
     = [ PrintProcessing 1; PrintSummaryHeader; PrintTotal 1;
         PrintSuccessful 0; PrintFailures 1; PrintCheckLog; PrintComplete ].
Proof. vm_compute. repeat split; reflexivity. Qed.

(** A failure is counted as a success when the name of the record holds
    the word saved. *)
Example main_failure_counted_as_success :
  let e :=
    Sample.with_rows
      (Sample.machine (inr (CompletedProcess 1 "")) Sample.writable)
      [ ["name"; "problem"; "solution"; "landing_page"];
        ["Time saved"; "too slow"; "faster widget"; "acme.com"] ] in
  console (snd (main e (Sample.alone e) Sample.blank))
  = [ PrintProcessing 1; PrintSummaryHeader; PrintTotal 1;
      PrintSuccessful 1; PrintFailures 0; PrintComplete ].
Proof. vm_compute. reflexivity. Qed.

(** An exception that leaves a worker ends the run before the summary. *)
Example main_log_failure :
  let e :=
    Sample.with_rows
      (Sample.machine (inr (CompletedProcess 1 "")) Sample.read_only)
      [ ["name"; "problem"; "solution"; "landing_page"];
        ["Acme"; "too slow"; "faster widget"; "acme.com"] ] in
  fst (main e (Sample.alone e) Sample.blank)
  = Raise (OSError ("[Errno 13] Permission denied: "
                    +:+ "'/home/u/bp/Generated_Business_Plans/error_log.txt'"))
  /\ console (snd (main e (Sample.alone e) Sample.blank)) = [PrintProcessing 1].
Proof. vm_compute. split; reflexivity. Qed.

(** * Further properties of the script *)

(** ** The dependencies *)

(** What [main] prints after the check of the dependencies is no list of
    missing dependencies. *)
Lemma main_console_checked e (workers : pool) w w1 :
  check_dependencies e w = (Return tt, w1) ->
  exists more,
    console (snd (main e workers w)) = (console w ++ more)%list
    /\ forall missing, ~ In (PrintMissing missing) more.
Proof.
  intros Hcheck. unfold main. rewrite Hcheck.
  destruct (check_dependencies_console _ _ _ Hcheck) as (Hconsole & _).
  unfold load_businesses.
  destruct (read_csv e (business_csv e)) as [x|[|header rows]].
  - destruct x; cbn [snd print console]; rewrite Hconsole;
      try (exists []; rewrite app_nil_r; split; [reflexivity | intros m []]).
    eexists. split; [reflexivity|].
    intros m [H|[]]. discriminate H.
  - exists []. cbn [snd]. rewrite app_nil_r, Hconsole.
    split; [reflexivity | intros m []].
  - set (businesses := load_rows rows).
    set (w2 := print w1 (PrintProcessing (Z.of_nat (length businesses)))).
    assert (Hpool : console (snd (imap workers 0 w2 businesses))
                    = console w2).
    { apply (imap_invariant (fun w0 => console w0 = console w2));
        [|reflexivity].
      intros k b f w0 _ _ H0. now rewrite run_effect_console. }
    destruct (imap workers 0 w2 businesses) as [[results|x|c] w3];
      cbn [snd] in *.
    + rewrite report_console, Hpool. subst w2. cbn [print console].
      rewrite Hconsole, <- !app_assoc. eexists. split; [reflexivity|].
      intros m Hm. cbn [app In] in Hm.
      destruct (0 <? failure_count businesses results)%Z; cbn [app In] in Hm;
        repeat (destruct Hm as [Hm|Hm]; [discriminate Hm|]); exact Hm.
    + rewrite Hpool. subst w2. cbn [print console]. rewrite Hconsole.
      eexists. split; [reflexivity|]. intros m [H|[]]. discriminate H.
    + rewrite Hpool. subst w2. cbn [print console]. rewrite Hconsole.
      eexists. split; [reflexivity|]. intros m [H|[]]. discriminate H.
Qed.

(** X1. A run of the script never reports tqdm as missing, though
    [check_dependencies] has the code for it: whenever a run prints a
    list of missing dependencies, tqdm is installed, the list holds
    ollama alone, and the run exits with code 1.  (Without tqdm the import
    at line 6 ends the run before [check_dependencies] is defined.) *)
Theorem script_reports_ollama_only e (workers : pool) w missing :
  In (PrintMissing missing) (console (snd (script e workers w))) ->
  ~ In (PrintMissing missing) (console w) ->
  missing = ["ollama"]
  /\ tqdm_installed e = true
  /\ fst (script e workers w) = Exit 1.
Proof.
  unfold script. intros Hin Hnew.
  destruct (tqdm_installed e) eqn:Htqdm; [|contradiction].
  destruct (makedirs_error e (output_directory e)); [contradiction|].
  destruct (check_dependencies e w) as [[[]|x|c] w1] eqn:Hcheck.
  - destruct (main_console_checked e workers w w1 Hcheck)
      as (more & Hmore & Hnone).
    rewrite Hmore in Hin. apply in_app_iff in Hin as [Hin|Hin];
      [contradiction | now destruct (Hnone missing)].
  - exfalso. unfold main in Hin. rewrite Hcheck in Hin. cbn [snd] in Hin.
    unfold check_dependencies in Hcheck. rewrite Htqdm in Hcheck.
    destruct (subprocess_run e ["which"; "ollama"]) as [x'|p].
    + injection Hcheck as _ <-. contradiction.
    + destruct (returncode p =? 0)%Z; discriminate Hcheck.
  - unfold main in *. rewrite Hcheck in *. cbn [fst snd] in *.
    unfold check_dependencies in Hcheck. rewrite Htqdm in Hcheck.
    destruct (subprocess_run e ["which"; "ollama"]) as [x'|p];
      [discriminate Hcheck|].
    destruct (returncode p =? 0)%Z; [discriminate Hcheck|].
    cbn [app] in Hcheck. injection Hcheck as <- <-.
    cbn [print spawn console] in Hin.
    rewrite <- app_assoc in Hin. apply in_app_iff in Hin as [Hin|Hin];
      [contradiction|].
    destruct Hin as [Hin|[Hin|[]]]; [|discriminate Hin].
    injection Hin as <-. repeat split; reflexivity.
Qed.

Lemma script_reports_ollama_only_witness :
  ["ollama"] = ["ollama"]
  /\ tqdm_installed Sample.bare = true
  /\ fst (script Sample.bare Sample.pool Sample.blank) = Exit 1.
Proof.
  apply (script_reports_ollama_only Sample.bare Sample.pool Sample.blank
           ["ollama"]).
  - vm_compute. left. reflexivity.
  - intros [].
Defined.

(** X2. When the output directory is there, [which ollama] runs and exits
    with a code other than 0, the run ends before the input file is read:
    with tqdm installed it prints that ollama is missing and exits with
    code 1, having changed no file and run no other subprocess; without
    tqdm the import at line 6 raises, and nothing is printed or run. *)
Theorem script_missing_dependency e (workers : pool) w p :
  subprocess_run e ["which"; "ollama"] = inr p ->
  returncode p <> 0%Z ->
  makedirs_error e (output_directory e) = None ->
  if tqdm_installed e
  then fst (script e workers w) = Exit 1
       /\ files (snd (script e workers w)) = files w
       /\ spawned (snd (script e workers w))
          = (spawned w ++ [["which"; "ollama"]])%list
       /\ console (snd (script e workers w))
          = (console w ++ [PrintMissing ["ollama"]; PrintPleaseInstall])%list
  else script e workers w
       = (Raise (ModuleNotFoundError "No module named 'tqdm'"), w).
Proof.
  intros Hrun Hcode Hdirs. unfold script.
  destruct (tqdm_installed e) eqn:Htqdm; [|reflexivity].
  rewrite Hdirs. unfold main, check_dependencies. rewrite Hrun, Htqdm.
  destruct (Z.eqb_spec (returncode p) 0); [contradiction|].
  cbn [app fst snd print spawn files spawned console].
  rewrite <- !app_assoc. repeat split; reflexivity.
Qed.

Lemma script_missing_dependency_witness :
  fst (script Sample.bare Sample.pool Sample.blank) = Exit 1
  /\ files (snd (script Sample.bare Sample.pool Sample.blank)) = ∅
  /\ spawned (snd (script Sample.bare Sample.pool Sample.blank))
     = [["which"; "ollama"]]
  /\ console (snd (script Sample.bare Sample.pool Sample.blank))
     = [PrintMissing ["ollama"]; PrintPleaseInstall].
Proof.
  refine (script_missing_dependency Sample.bare Sample.pool Sample.blank
            (CompletedProcess 1 "") eq_refl _ eq_refl).
  discriminate.
Defined.

(** Without tqdm, on the same machine, the run ends at the import. *)
Example script_without_tqdm :
  script Sample.no_tqdm Sample.pool Sample.blank
  = (Raise (ModuleNotFoundError "No module named 'tqdm'"), Sample.blank).
Proof. reflexivity. Qed.

(** ** load_businesses at the edges of its input *)

(** X3. When the input file does not exist, [load_businesses] prints that
    [businesses.csv] of the script directory was not found and exits with
    code 1; so does [main], which then has run no tool and has changed no
    file. *)
Theorem main_missing_csv e (workers : pool) w w1 m :
  check_dependencies e w = (Return tt, w1) ->
  read_csv e (business_csv e) = inl (FileNotFoundError m) ->
  load_businesses e w1 = (Exit 1, print w1 (PrintCsvNotFound (business_csv e)))
  /\ main e workers w = (Exit 1, print w1 (PrintCsvNotFound (business_csv e)))
  /\ files (snd (main e workers w)) = files w
  /\ spawned (snd (main e workers w))
     = (spawned w ++ [["which"; "ollama"]])%list
  /\ business_csv e = path_join (script_directory e) "businesses.csv".
Proof.
  intros Hcheck Hread.
  assert (Hload : load_businesses e w1
                  = (Exit 1, print w1 (PrintCsvNotFound (business_csv e)))).
  { unfold load_businesses. now rewrite Hread. }
  assert (Hmain : main e workers w
                  = (Exit 1, print w1 (PrintCsvNotFound (business_csv e)))).
  { unfold main. now rewrite Hcheck, Hload. }
  rewrite Hmain. cbn [snd print files spawned].
  destruct (check_dependencies_console _ _ _ Hcheck) as (_ & Hspawned & Hfiles).
  repeat split; assumption.
Qed.

Lemma main_missing_csv_witness :
  let w1 := spawn Sample.blank ["which"; "ollama"] in
  let csv := "/home/u/bp/businesses.csv" in
  load_businesses Sample.no_csv w1 = (Exit 1, print w1 (PrintCsvNotFound csv))
  /\ main Sample.no_csv Sample.pool Sample.blank
     = (Exit 1, print w1 (PrintCsvNotFound csv))
  /\ files (snd (main Sample.no_csv Sample.pool Sample.blank)) = ∅
  /\ spawned (snd (main Sample.no_csv Sample.pool Sample.blank))
     = [["which"; "ollama"]]
  /\ csv = path_join "/home/u/bp" "businesses.csv".
Proof.
  exact (main_missing_csv Sample.no_csv Sample.pool Sample.blank
           (spawn Sample.blank ["which"; "ollama"])
           "[Errno 2] No such file or directory: '/home/u/bp/businesses.csv'"
           eq_refl eq_refl).
Defined.

(** X4. An input file without any row, not even the header, is not
    reported as zero businesses: [next(reader)] raises [StopIteration],
    which leaves [load_businesses] and [main]; nothing is printed and no
    tool is run. *)
Theorem main_empty_csv e (workers : pool) w w1 :
  check_dependencies e w = (Return tt, w1) ->
  read_csv e (business_csv e) = inr [] ->
  load_businesses e w1 = (Raise StopIteration, w1)
  /\ main e workers w = (Raise StopIteration, w1)
  /\ console w1 = console w
  /\ spawned w1 = (spawned w ++ [["which"; "ollama"]])%list.
Proof.
  intros Hcheck Hread.
  assert (Hload : load_businesses e w1 = (Raise StopIteration, w1)).
  { unfold load_businesses. now rewrite Hread. }
  split; [exact Hload|]. split.
  - unfold main. now rewrite Hcheck, Hload.
  - destruct (check_dependencies_console _ _ _ Hcheck) as (Hc & Hs & _).
    now split.
Qed.

Lemma main_empty_csv_witness :
  let e := Sample.with_rows Sample.parent [] in
  let w1 := spawn Sample.blank ["which"; "ollama"] in
  load_businesses e w1 = (Raise StopIteration, w1)
  /\ main e Sample.pool Sample.blank = (Raise StopIteration, w1)
  /\ console w1 = console Sample.blank
  /\ spawned w1 = (spawned Sample.blank ++ [["which"; "ollama"]])%list.
Proof.
  intros e w1.
  exact (main_empty_csv e Sample.pool Sample.blank w1 eq_refl eq_refl).
Defined.

Lemma load_rows_all_short rows :
  Forall (fun row => (length row < 4)%nat) rows -> load_rows rows = [].
Proof.
  induction 1 as [|row rows Hrow _ IH]; [reflexivity|].
  now rewrite (load_rows_short row rows Hrow).
Qed.

(** X5. A file whose rows after the header all have fewer than four
    fields (a file of the header alone, for one) gives no record: [main]
    runs no tool, changes no file and prints a summary of zero businesses,
    zero successes and zero failures without the hint at the error log. *)
Theorem main_no_records e (workers : pool) w w1 header rows :
  check_dependencies e w = (Return tt, w1) ->
  read_csv e (business_csv e) = inr (header :: rows) ->
  Forall (fun row => (length row < 4)%nat) rows ->
  fst (main e workers w) = Return tt
  /\ console (snd (main e workers w))
     = (console w
        ++ [ PrintProcessing 0; PrintSummaryHeader; PrintTotal 0;
             PrintSuccessful 0; PrintFailures 0; PrintComplete ])%list
  /\ files (snd (main e workers w)) = files w
  /\ spawned (snd (main e workers w))
     = (spawned w ++ [["which"; "ollama"]])%list.
Proof.
  intros Hcheck Hread Hshort.
  unfold main. rewrite Hcheck.
  rewrite (load_businesses_rows e w1 _ _ Hread).
  rewrite (load_rows_all_short rows Hshort).
  destruct (check_dependencies_console _ _ _ Hcheck)
    as (Hconsole & Hspawned & Hfiles).
  rewrite imap_nil. cbn [length Z.of_nat fst snd].
  rewrite report_console.
  rewrite (proj1 (report_files _ _ _)), (proj2 (report_files _ _ _)).
  unfold failure_count, success_count, sum.
  cbn [List.filter map fold_left length Z.of_nat Z.sub Z.ltb Z.compare
       print console files spawned app].
  rewrite Hconsole, <- !app_assoc. split; [reflexivity|].
  split; [reflexivity|]. split; assumption.
Qed.

Lemma main_no_records_witness :
  let e :=
    Sample.with_rows Sample.parent
      [ ["name"; "problem"; "solution"; "landing_page"]; ["Short"; "row"] ] in
  fst (main e Sample.pool Sample.blank) = Return tt
  /\ console (snd (main e Sample.pool Sample.blank))
     = [ PrintProcessing 0; PrintSummaryHeader; PrintTotal 0;
         PrintSuccessful 0; PrintFailures 0; PrintComplete ]
  /\ files (snd (main e Sample.pool Sample.blank)) = ∅
  /\ spawned (snd (main e Sample.pool Sample.blank)) = [["which"; "ollama"]].
Proof.
  intros e.
  exact (main_no_records e Sample.pool Sample.blank
           (spawn Sample.blank ["which"; "ollama"])
           ["name"; "problem"; "solution"; "landing_page"]
           [["Short"; "row"]] eq_refl eq_refl
           ltac:(repeat constructor)).
Defined.

Lemma load_rows_firstn rows : load_rows (map (firstn 4) rows) = load_rows rows.
Proof.
  induction rows as [|row rows IH]; [reflexivity|].
  cbn [map load_rows]. rewrite IH.
  destruct row as [|f0 [|f1 [|f2 [|f3 extra]]]]; reflexivity.
Qed.

(** X6. The loader reads the first four fields of a row and no other: the
    records of a file are those of the same file with every row cut down
    to its first four fields. *)
Theorem load_businesses_ignores_extra_fields e e' w header rows :
  read_csv e (business_csv e) = inr (header :: rows) ->
  read_csv e' (business_csv e') = inr (header :: map (firstn 4) rows) ->
  load_businesses e w = load_businesses e' w.
Proof.
  intros H H'.
  rewrite (load_businesses_rows e w _ _ H).
  rewrite (load_businesses_rows e' w _ _ H').
  now rewrite load_rows_firstn.
Qed.

Lemma load_businesses_ignores_extra_fields_witness :
  load_businesses Sample.parent Sample.blank
  = load_businesses
      (Sample.with_rows Sample.parent
         [ ["name"; "problem"; "solution"; "landing_page"];
           ["  Acme "; "too slow"; "faster widget"; "acme.com "];
           ["Short"; "row"];
           ["Bolt"; " loose "; "tighter"; "bolt.io"] ])
      Sample.blank.
Proof.
  exact (load_businesses_ignores_extra_fields Sample.parent
           (Sample.with_rows Sample.parent
              [ ["name"; "problem"; "solution"; "landing_page"];
                ["  Acme "; "too slow"; "faster widget"; "acme.com "];
                ["Short"; "row"];
                ["Bolt"; " loose "; "tighter"; "bolt.io"] ])
           Sample.blank
           ["name"; "problem"; "solution"; "landing_page"]
           (tl Sample.rows) eq_refl eq_refl).
Defined.

Lemma load_rows_filter_map rows :
  load_rows rows
  = map (fun row =>
           Business (Str.strip (nth 0 row "")) (Str.strip (nth 1 row ""))
                    (Str.strip (nth 2 row "")) (Str.strip (nth 3 row "")))
        (List.filter (fun row => (4 <=? length row)%nat) rows).
Proof.
  induction rows as [|row rows IH]; [reflexivity|].
  cbn [load_rows List.filter].
  destruct (4 <=? length row)%nat; cbn [map]; now rewrite IH.
Qed.

(** X7. The loader returns the records in the order of the rows, one for
    each row of at least four fields after the header and none for the
    header: their number is the number of such rows, so at most the number
    of rows after the header. *)
Theorem load_businesses_count e w header rows :
  read_csv e (business_csv e) = inr (header :: rows) ->
  exists businesses,
    load_businesses e w = (Return businesses, w)
    /\ map name businesses
       = map (fun row => Str.strip (nth 0 row ""))
             (List.filter (fun row => (4 <=? length row)%nat) rows)
    /\ length businesses
       = length (List.filter (fun row => (4 <=? length row)%nat) rows)
    /\ (length businesses <= length rows)%nat.
Proof.
  intros H. exists (load_rows rows).
  split; [exact (load_businesses_rows e w _ _ H)|].
  rewrite load_rows_filter_map.
  split; [now rewrite map_map|].
  split; [now rewrite length_map|].
  rewrite length_map. apply List.filter_length_le.
Qed.

Lemma load_businesses_count_witness :
  exists businesses,
    load_businesses Sample.parent Sample.blank = (Return businesses, Sample.blank)
    /\ map name businesses = ["Acme"; "Bolt"]
    /\ length businesses = 2%nat
    /\ (length businesses <= 3)%nat.
Proof.
  exact (load_businesses_count Sample.parent Sample.blank
           ["name"; "problem"; "solution"; "landing_page"]
           (tl Sample.rows) eq_refl).
Defined.

Lemma rstrip_idem s : Str.rstrip (Str.rstrip s) = Str.rstrip s.
Proof.
  induction s as [|c s IH]; [reflexivity|].
  cbn [Str.rstrip]. destruct (Str.rstrip s) as [|d t] eqn:Hs.
  - destruct (Str.isspace c) eqn:Hc; [reflexivity|].
    cbn [Str.rstrip]. now rewrite Hc.
  - cbn [Str.rstrip] in *. now rewrite IH.
Qed.

(** Stripping a stripped text changes nothing. *)
Lemma strip_idem s : Str.strip (Str.strip s) = Str.strip s.
Proof.
  pose proof (StrFacts.strip_head s) as Hhead.
  unfold Str.strip in *.
  destruct (Str.rstrip (Str.lstrip s)) as [|c t] eqn:Hs; [reflexivity|].
  cbn [Str.lstrip]. rewrite Hhead, <- Hs. apply rstrip_idem.
Qed.

Lemma load_businesses_inv e w businesses w' :
  load_businesses e w = (Return businesses, w') ->
  exists header rows,
    read_csv e (business_csv e) = inr (header :: rows)
    /\ businesses = load_rows rows.
Proof.
  unfold load_businesses.
  destruct (read_csv e (business_csv e)) as [[]|[|header rows]];
    try discriminate.
  intros [= <- _]. now exists header, rows.
Qed.

(** X8. No field of a loaded record begins or ends with white space:
    stripping the name, the problem, the solution or the landing page of a
    record that [load_businesses] returned gives the field back. *)
Theorem load_businesses_fields_stripped e w businesses w' b :
  load_businesses e w = (Return businesses, w') ->
  In b businesses ->
  Str.strip (name b) = name b
  /\ Str.strip (problem b) = problem b
  /\ Str.strip (solution b) = solution b
  /\ Str.strip (landing_page b) = landing_page b.
Proof.
  intros Hload Hb.
  destruct (load_businesses_inv _ _ _ _ Hload) as (header & rows & _ & ->).
  rewrite load_rows_filter_map in Hb.
  apply in_map_iff in Hb as (row & <- & _).
  cbn [name problem solution landing_page].
  now rewrite !strip_idem.
Qed.

Lemma load_businesses_fields_stripped_witness :
  let b := Business "Bolt" "loose" "tighter" "bolt.io" in
  Str.strip (name b) = name b
  /\ Str.strip (problem b) = problem b
  /\ Str.strip (solution b) = solution b
  /\ Str.strip (landing_page b) = landing_page b.
Proof.
  intros b.
  exact (load_businesses_fields_stripped Sample.parent Sample.blank
           Sample.businesses Sample.blank b eq_refl
           (or_intror (or_introl eq_refl))).
Defined.

(** ** generate_filename *)

Lemma title_char_space c :
  Ascii.eqb (Str.lower_char (if Ascii.eqb c " " then "_"%char else c)) " "
  = false.
Proof. destruct c as [[] [] [] [] [] [] [] []]; reflexivity. Qed.

Lemma title_char_slash c :
  Ascii.eqb (Str.lower_char (if Ascii.eqb c " " then "_"%char else c)) "/"
  = Ascii.eqb c "/".
Proof. destruct c as [[] [] [] [] [] [] [] []]; reflexivity. Qed.

Lemma title_no_space n :
  Str.has_char " " (Str.lower (Str.replace_char " " "_" n)) = false.
Proof.
  induction n as [|c n IH]; [reflexivity|].
  cbn [Str.replace_char Str.lower Str.has_char].
  now rewrite title_char_space, IH.
Qed.

Lemma title_slash n :
  Str.has_char "/" (Str.lower (Str.replace_char " " "_" n))
  = Str.has_char "/" n.
Proof.
  induction n as [|c n IH]; [reflexivity|].
  cbn [Str.replace_char Str.lower Str.has_char].
  now rewrite title_char_slash, IH.
Qed.

(** The time stamp is nineteen characters, digits and the signs "-" and
    "_". *)
Lemma strftime_shape t c :
  (nat_of_ascii c < 45 \/ nat_of_ascii c = 47)%nat ->
  String.length (strftime t) = 19%nat
  /\ Str.has_char c (strftime t) = false.
Proof.
  intros Hc. destruct t as [y mo d h mi s us].
  unfold strftime, four_digits, two_digits.
  cbn [year month day hour minute second String.append String.length
       Str.has_char].
  split; [reflexivity|].
  assert (Hdash : Ascii.eqb "-" c = false).
  { destruct (Ascii.eqb_spec "-"%char c) as [<-|]; [|reflexivity].
    change (nat_of_ascii "-") with 45%nat in Hc. lia. }
  assert (Hunder : Ascii.eqb "_" c = false).
  { destruct (Ascii.eqb_spec "_"%char c) as [<-|]; [|reflexivity].
    change (nat_of_ascii "_") with 95%nat in Hc. lia. }
  rewrite !digit_neq, Hdash, Hunder by lia. reflexivity.
Qed.

(** X9. The title that [generate_filename] makes is not safe as a file
    name: no space is left in it, but a slash is in it exactly when one is
    in the name, so that the title of a name with a slash is a path
    through directories. *)
Theorem generate_filename_shape e n :
  Str.has_char " " (generate_filename e n) = false
  /\ Str.has_char "/" (generate_filename e n) = Str.has_char "/" n.
Proof.
  unfold generate_filename. cbv zeta.
  rewrite !StrFacts.has_char_app, title_no_space, title_slash.
  destruct (strftime_shape (now e) " ") as [_ ->];
    [left; change (nat_of_ascii " ") with 32%nat; lia|].
  destruct (strftime_shape (now e) "/") as [_ ->];
    [right; reflexivity|].
  cbn. now rewrite orb_false_r.
Qed.

Lemma contains_saved_message path :
  Str.contains "saved" ("Business plan saved: " +:+ path) = true.
Proof. reflexivity. Qed.

Lemma success_count_all results :
  Forall (fun r => Str.contains "saved" r = true) results ->
  success_count results = Z.of_nat (length results).
Proof.
  intros Hall. rewrite success_count_filter. do 2 f_equal.
  induction Hall as [|r rs Hr _ IH]; [reflexivity|].
  cbn [List.filter]. now rewrite Hr, IH.
Qed.






(** What the one file holds is for the schedule to decide: the second
    plan when the handlers run one after the other, and a mixture of the
    two when both open the file before either writes. *)
Example imap_same_second_contents :
  let path :=
    "/home/u/bp/Generated_Business_Plans/my_shop_2024-03-07_09-05-02.txt" in
  map_to_list (files (snd (imap Sample.twin_pool 0 Sample.blank Sample.twins)))
  = [(path, "SECOND PLAN")]
  /\ map_to_list
       (files (snd (imap Sample.twin_race 0 Sample.blank Sample.twins)))
     = [(path, "FIRST PLANN")].
Proof. vm_compute. split; reflexivity. Qed.

(** ** A run without failures *)

(** X11. When the tool answers every loaded record with exit code 0 and
    a text free of the word Error, and every plan file is opened and
    written without an exception, [main] returns and its summary counts
    every record as a success: the successes are the total, the failures
    are zero and the hint at the error log is not printed. *)
Theorem main_all_saved e (workers : pool) w businesses w1 w2 :
  check_dependencies e w = (Return tt, w1) ->
  load_businesses e w1 = (Return businesses, w2) ->
  (forall k b,
      businesses !! k = Some b ->
      exists p,
        subprocess_run (workers k) (ollama_argv "mistral" b) = inr p
        /\ returncode p = 0%Z
        /\ Str.contains "Error" (stdout p) = false
        /\ open_error (workers k) (plan_path (workers k) (name b)) = None
        /\ write_error (workers k) (plan_path (workers k) (name b))
                       (Str.strip (stdout p)) = None) ->
  let total := Z.of_nat (length businesses) in
  fst (main e workers w) = Return tt
  /\ console (snd (main e workers w))
     = (console w
        ++ [ PrintProcessing total; PrintSummaryHeader; PrintTotal total;
             PrintSuccessful total; PrintFailures 0; PrintComplete ])%list.
Proof.
  intros Hcheck Hload Hall total.
  destruct (main_returns e workers w businesses w1 w2 Hcheck Hload)
    as (results & w3 & Hpool & Hmain).
  { intros k b Hk.
    destruct (Hall k b Hk) as (p & Hrun & Hcode & Hword & Hopen & Hwrite).
    rewrite (process_business_writes _ w b p Hrun Hcode Hword Hopen Hwrite).
    eauto. }
  assert (Hsaved : Forall (fun r => Str.contains "saved" r = true) results).
  { apply Forall_lookup. intros k r Hr.
    assert (Hlt : (k < length businesses)%nat).
    { rewrite <- (imap_length _ _ _ _ _ _ Hpool).
      exact (lookup_lt_Some _ _ _ Hr). }
    apply lookup_lt_is_Some in Hlt as [b Hk].
    destruct (imap_lookup _ _ _ _ _ _ Hpool k b w Hk) as (r' & Hr' & Hb).
    rewrite Hr in Hr'. injection Hr' as <-.
    destruct (Hall k b Hk) as (p & Hrun & Hcode & Hword & Hopen & Hwrite).
    cbn [Nat.add] in Hb.
    rewrite (process_business_writes _ w b p Hrun Hcode Hword Hopen Hwrite)
      in Hb.
    injection Hb as <-. apply contains_saved_message. }
  rewrite Hmain. cbn [fst snd]. split; [reflexivity|].
  rewrite report_console, (imap_console _ _ _ _ _ _ Hpool).
  unfold failure_count.
  rewrite (success_count_all results Hsaved), (imap_length _ _ _ _ _ _ Hpool).
  fold total. rewrite Z.sub_diag. cbn [Z.ltb Z.compare print console].
  rewrite (load_businesses_world _ _ _ _ Hload).
  destruct (check_dependencies_console _ _ _ Hcheck) as [-> _].
  now rewrite <- !app_assoc.
Qed.

Lemma main_all_saved_witness :
  let e := Sample.with_rows Sample.parent Sample.twin_rows in
  fst (main e Sample.twin_race Sample.blank) = Return tt
  /\ console (snd (main e Sample.twin_race Sample.blank))
     = [ PrintProcessing 2; PrintSummaryHeader; PrintTotal 2;
         PrintSuccessful 2; PrintFailures 0; PrintComplete ].
Proof.
  intros e.
  apply (main_all_saved e Sample.twin_race Sample.blank Sample.twins
           (spawn Sample.blank ["which"; "ollama"])
           (spawn Sample.blank ["which"; "ollama"])).
  - reflexivity.
  - reflexivity.
  - intros [|[|k]] b Hb; [| |discriminate Hb]; injection Hb as <-.
    + exists (CompletedProcess 0 "FIRST PLAN"). repeat split; reflexivity.
    + exists (CompletedProcess 0 "SECOND PLAN"). repeat split; reflexivity.
Defined.

(** ** What the handler does to the files *)

(** X12. Handling a record changes at most one file and removes none: the
    files afterwards are the files before, or those with the plan file
    written, or those with a message appended to the error log. *)
Theorem process_business_touches_one_file e w b :
  let w' := snd (process_business e w b) in
  let log := error_log_path e in
  (files w' = files w
   \/ (exists plan, files w' = <[plan_path e (name b) := plan]> (files w))
   \/ (exists message,
         files w'
         = <[log := default "" (files w !! log) +:+ message]> (files w)))
  /\ dom (files w) ⊆ dom (files w').
Proof.
  intros w' log. subst w' log.
  handler_cases e b; cbn [snd set_files spawn files];
    (split;
     [ first [ now left
             | solve [right; left; eauto]
             | solve [right; right; eauto] ]
     | first [ reflexivity | rewrite dom_insert_L; apply union_subseteq_r ] ]).
Qed.

Lemma process_business_log e w b :
  files (snd (process_business e w b)) !! error_log_path e
  = files w !! error_log_path e
  \/ exists message,
       files (snd (process_business e w b)) !! error_log_path e
       = Some (default "" (files w !! error_log_path e) +:+ message).
Proof.
  handler_cases e b; cbn [snd set_files spawn files];
    first [ now left
          | right; eexists; apply lookup_insert_eq
          | left; apply lookup_insert_ne, plan_path_not_log ].
Qed.

(** X13. The handler never writes a plan over the error log: the path of
    a plan file differs from the path of the log, whatever the name of
    the record; so the log afterwards is the log before, or the log before
    with one message appended. *)
Theorem process_business_log_append_only e w b :
  let w' := snd (process_business e w b) in
  let log := error_log_path e in
  plan_path e (name b) <> log
  /\ (files w' !! log = files w !! log
      \/ exists message,
           files w' !! log
           = Some (default "" (files w !! log) +:+ message)).
Proof.
  intros w' log. subst w' log.
  split; [apply plan_path_not_log | apply process_business_log].
Qed.

(** X14. Over a whole pool of workers of one script directory the error
    log only grows: whatever the outcomes, and also when an exception
    ends the pool, the log afterwards begins with the log before. *)
Theorem imap_log_grows (workers : pool) sd businesses :
  (forall k, script_directory (workers k) = sd) ->
  forall i w old,
    let log :=
      path_join (path_join sd "Generated_Business_Plans") "error_log.txt" in
    files w !! log = Some old ->
    exists more,
      files (snd (imap workers i w businesses)) !! log = Some (old +:+ more).
Proof.
  intros Hdir i w old log Hold.
  apply (imap_invariant
           (fun w0 => exists more, files w0 !! log = Some (old +:+ more))).
  - intros k b f w0 _ Hf [more Hmore].
    assert (Hlog : error_log_path (workers (i + k)%nat) = log).
    { unfold error_log_path, output_directory. now rewrite Hdir. }
    assert (Hplan : String.eqb (plan_path (workers (i + k)%nat) (name b)) log
                    = false).
    { apply String.eqb_neq. rewrite <- Hlog. apply plan_path_not_log. }
    destruct (handler_effects_shape _ _ _ _ Hf)
      as [[argv ->]|[[text ->]|[->|[text ->]]]].
    + now exists more.
    + rewrite Hlog. exists (more +:+ text).
      cbn [run_effect set_files files].
      rewrite lookup_insert_eq, Hmore. cbn [default id].
      now rewrite StrFacts.app_assoc.
    + exists more. now rewrite run_effect_other.
    + exists more. now rewrite run_effect_other.
  - exists "". now rewrite app_empty_r.
Qed.

Lemma imap_log_grows_witness :
  let log := "/home/u/bp/Generated_Business_Plans/error_log.txt" in
  let w := World {[ log := "old entry" +:+ nl ]} [] [] in
  exists more,
    files (snd (imap Sample.pool 0 w Sample.businesses)) !! log
    = Some (("old entry" +:+ nl) +:+ more).
Proof.
  intros log w.
  refine (imap_log_grows Sample.pool "/home/u/bp" Sample.businesses
            _ 0%nat w ("old entry" +:+ nl) eq_refl).
  intros [|k]; reflexivity.
Defined.

(** ** The hint of the summary *)

Lemma filter_length_forallb (f : string -> bool) l :
  (length (List.filter f l) <= length l)%nat
  /\ (forallb f l = true <-> length (List.filter f l) = length l).
Proof.
  induction l as [|a l [IHle IHiff]]; [now split|].
  cbn [List.filter forallb length].
  destruct (f a); cbn [andb length].
  - split; [lia|]. rewrite IHiff. split; [congruence | now intros [= ->]].
  - split; [lia|]. split; [discriminate | lia].
Qed.

Lemma failure_positive businesses results :
  length results = length businesses ->
  (0 <? failure_count businesses results)%Z
  = negb (forallb (Str.contains "saved") results).
Proof.
  intros Hlen. unfold failure_count.
  rewrite success_count_filter, <- Hlen.
  destruct (filter_length_forallb (Str.contains "saved") results)
    as [Hle Hiff].
  destruct (forallb (Str.contains "saved") results); cbn [negb].
  - rewrite (proj1 Hiff eq_refl). apply Z.ltb_ge. lia.
  - apply Z.ltb_lt.
    assert (length (List.filter (Str.contains "saved") results)
            <> length results); [|lia].
    intros E. apply Hiff in E. discriminate E.
Qed.

(** X15. When [main] reaches its summary, it prints the hint to look into
    the error log exactly when some result lacks the word saved, and
    nothing else of what it prints depends on the results but the two
    counts. *)
Theorem main_hint e workers w businesses w1 w2 results w3 :
  check_dependencies e w = (Return tt, w1) ->
  load_businesses e w1 = (Return businesses, w2) ->
  imap workers 0
       (print w2 (PrintProcessing (Z.of_nat (length businesses)))) businesses
  = (Return results, w3) ->
  let total := Z.of_nat (length businesses) in
  console (snd (main e workers w))
  = (console w
     ++ [ PrintProcessing total; PrintSummaryHeader; PrintTotal total;
          PrintSuccessful (success_count results);
          PrintFailures (total - success_count results) ]
     ++ (if forallb (Str.contains "saved") results
         then [] else [PrintCheckLog])
     ++ [PrintComplete])%list.
Proof.
  intros Hcheck Hload Hpool total.
  rewrite (main_unfold _ _ _ _ _ _ _ _ Hcheck Hload Hpool). cbn [snd].
  rewrite report_console, (imap_console _ _ _ _ _ _ Hpool).
  rewrite (failure_positive _ _ (imap_length _ _ _ _ _ _ Hpool)).
  unfold failure_count. fold total. cbn [print console].
  rewrite (load_businesses_world _ _ _ _ Hload).
  destruct (check_dependencies_console _ _ _ Hcheck) as [-> _].
  destruct (forallb (Str.contains "saved") results); cbn [negb];
    now rewrite <- !app_assoc.
Qed.

Lemma main_hint_witness :
  console (snd (main Sample.parent Sample.pool Sample.blank))
  = [ PrintProcessing 2; PrintSummaryHeader; PrintTotal 2;
      PrintSuccessful 1; PrintFailures 1; PrintCheckLog; PrintComplete ].
Proof.
  apply (main_hint
           Sample.parent Sample.pool Sample.blank Sample.businesses
           Sample.checked Sample.checked Sample.results Sample.processed).
  - reflexivity.
  - reflexivity.
  - vm_compute. reflexivity.
Defined.

(** ** A tool that prints nothing *)

Lemma lstrip_all_space s : Str.all_space s = true -> Str.lstrip s = "".
Proof.
  induction s as [|c s IH]; [reflexivity|].
  cbn [Str.all_space Str.lstrip]. intros H.
  apply andb_prop in H as [Hc Hs]. rewrite Hc. exact (IH Hs).
Qed.

Lemma strip_all_space s : Str.all_space s = true -> Str.strip s = "".
Proof. intros H. unfold Str.strip. now rewrite (lstrip_all_space s H). Qed.

(** X16. A tool that exits with code 0 and prints nothing but white space
    is taken for a success: the handler writes an empty plan file, reports
    it as saved, and the result counts as a success in the summary. *)
Theorem process_business_blank_output e w b p :
  subprocess_run e (ollama_argv "mistral" b) = inr p ->
  returncode p = 0%Z ->
  Str.all_space (stdout p) = true ->
  open_error e (plan_path e (name b)) = None ->
  let path := plan_path e (name b) in
  fst (process_business e w b) = Return ("Business plan saved: " +:+ path)
  /\ files (snd (process_business e w b)) = <[path := ""]> (files w)
  /\ success_count ["Business plan saved: " +:+ path] = 1%Z.
Proof.
  intros Hrun Hcode Hblank Hopen path.
  assert (Hword : Str.contains "Error" (stdout p) = false).
  { now apply StrFacts.contains_all_space. }
  rewrite process_business_unfold. cbv zeta.
  rewrite (plan_of_exit_0 e w b p Hrun Hcode), contains_Error_strip, Hword.
  rewrite (strip_all_space _ Hblank).
  unfold save_business_plan. cbv zeta. subst path. rewrite Hopen.
  cbn [write_outcome written fst snd set_files spawn files].
  split; [reflexivity|]. split; [reflexivity|].
  rewrite success_count_filter. cbn [List.filter].
  now rewrite contains_saved_message.
Qed.

Lemma process_business_blank_output_witness :
  let e :=
    Sample.machine (inr (CompletedProcess 0 (" " +:+ nl))) Sample.writable in
  let path :=
    "/home/u/bp/Generated_Business_Plans/acme_2024-03-07_09-05-02.txt" in
  fst (process_business e Sample.blank Sample.acme)
  = Return ("Business plan saved: " +:+ path)
  /\ files (snd (process_business e Sample.blank Sample.acme))
     = <[path := ""]> ∅
  /\ success_count ["Business plan saved: " +:+ path] = 1%Z.
Proof.
  intros e path.
  exact (process_business_blank_output e Sample.blank Sample.acme
           (CompletedProcess 0 (" " +:+ nl))
           eq_refl eq_refl eq_refl eq_refl).
Defined.

(** ** What the tally counts *)




(** ** A reported save *)



